(** * AI Workflow Continuity System: the remote MCP server

    A shallow embedding of [src/replit_mcp_server.py].  The server keeps two
    process-wide collections, [workflow_sessions] (a dict) and
    [workflow_memory] (a list), and exposes four HTTP handlers: [root],
    [health], [mcp_options] and [mcp_endpoint]; the last one dispatches the
    JSON-RPC methods and, for [tools/call], runs [execute_tool].

    Python values that come out of [json.loads] are modelled by [json];
    Python strings are sequences of code points.  The random identifier and
    the clock are read from an explicit environment [Env].  What the CPython
    runtime contributes (the repr of floats and strings, [str.title], the
    text of the exceptions it raises itself) is collected in [Runtime].
    Building a [JSONResponse] renders its content at once and can raise;
    [construct] models that, inside the [try] and inside the [except].
    Resource limits of the interpreter (memory, recursion depth) and the
    log are outside the model. *)

From Stdlib Require Import ZArith NArith List String Ascii Decimal DecimalNat Lia.
From Stdlib Require Import Floats.SpecFloat.
From stdpp Require Import base gmap list.

Local Set Warnings "-register-all".

Open Scope Z_scope.
Open Scope list_scope.

(** ** Python strings *)

(** A Python [str] is a sequence of Unicode code points; [len] and slicing
    count code points, not bytes. *)
Definition pystr : Type := list N.

(** An ASCII literal of the source. *)
Definition lit (s : string) : pystr := map N_of_ascii (list_ascii_of_string s).

(** The line feed written [\n] in the source's literals. *)
Definition nl : pystr := [10%N].

(** Non-ASCII characters occurring in the source's literals. *)
Definition U_check : pystr := [0x2705%N].      (* white heavy check mark *)
Definition U_bullet : pystr := [0x2022%N].     (* bullet *)
Definition U_clipboard : pystr := [0x1F4CB%N].
Definition U_target : pystr := [0x1F3AF%N].
Definition U_floppy : pystr := [0x1F4BE%N].
Definition U_memo : pystr := [0x1F4DD%N].
Definition U_zap : pystr := [0x26A1%N].
Definition U_id : pystr := [0x1F194%N].
Definition U_chart : pystr := [0x1F4CA%N].
Definition U_cycle : pystr := [0x1F504%N].
Definition U_trend : pystr := [0x1F4C8%N].
Definition U_shield : pystr := [0x1F6E1%N; 0xFE0F%N].
Definition U_trophy : pystr := [0x1F3C6%N].
Definition U_rocket : pystr := [0x1F680%N].

(** Decimal digits, most significant first. *)
Fixpoint digits (d : uint) : pystr :=
  match d with
  | Nil => []
  | D0 d => 48%N :: digits d
  | D1 d => 49%N :: digits d
  | D2 d => 50%N :: digits d
  | D3 d => 51%N :: digits d
  | D4 d => 52%N :: digits d
  | D5 d => 53%N :: digits d
  | D6 d => 54%N :: digits d
  | D7 d => 55%N :: digits d
  | D8 d => 56%N :: digits d
  | D9 d => 57%N :: digits d
  end.

(** [str(n)] for the result of [len]. *)
Definition str_of_nat (n : nat) : pystr := digits (Nat.to_uint n).

(** [str(z)] for a Python [int]. *)
Definition str_of_Z (z : Z) : pystr :=
  match Z.to_int z with
  | Decimal.Pos d => digits d
  | Decimal.Neg d => 45%N :: digits d
  end.

(** [sep.join(parts)]. *)
Fixpoint join (sep : pystr) (parts : list pystr) : pystr :=
  match parts with
  | [] => []
  | [p] => p
  | p :: ps => p ++ sep ++ join sep ps
  end.

(** [needle in hay] for strings: [needle] occurs as a contiguous block. *)
Definition occurs_in (needle hay : pystr) : Prop :=
  exists pre post, hay = pre ++ needle ++ post.

(** ** JSON values as Python objects *)

(** The objects [json.loads] builds: [None], [bool], [int], [float], [str],
    [list] and [dict] with string keys.  A [dict] is given by its items in
    insertion order; the keys of a dict are pairwise distinct. *)
Inductive json : Type :=
| JNull
| JBool (b : bool)
| JInt (z : Z)
| JFloat (f : spec_float)
| JStr (s : pystr)
| JArr (l : list json)
| JObj (d : list (pystr * json)).

(** [d[k]] when present. *)
Fixpoint dict_lookup (d : list (pystr * json)) (k : pystr) : option json :=
  match d with
  | [] => None
  | (k', v) :: d' => if bool_decide (k' = k) then Some v else dict_lookup d' k
  end.

(** [d.get(k, dflt)] on a dict. *)
Definition dict_get (d : list (pystr * json)) (k : pystr) (dflt : json) : json :=
  match dict_lookup d k with
  | Some v => v
  | None => dflt
  end.

(** [v == s] for a string literal [s]: only an equal [str] compares equal. *)
Definition py_eq_str (v : json) (s : pystr) : bool :=
  match v with
  | JStr t => bool_decide (t = s)
  | _ => false
  end.

(** Truth value of an object, as tested by [if v:]. *)
Definition truthy (v : json) : bool :=
  match v with
  | JNull => false
  | JBool b => b
  | JInt z => negb (z =? 0)
  | JFloat f => match f with S754_zero _ => false | _ => true end
  | JStr s => match s with [] => false | _ => true end
  | JArr l => match l with [] => false | _ => true end
  | JObj d => match d with [] => false | _ => true end
  end.

(** ** Exceptions *)

(** The exceptions that can reach the handler of [mcp_endpoint]:
    [ValueError] is raised by the source itself with the given message; the
    others are raised by the runtime. *)
Inductive pyexn : Type :=
| ValueError (msg : pystr)
| AttributeError (obj : json) (attr : pystr)   (* obj.attr does not exist *)
| NotSubscriptable (obj : json)                (* obj[:150] fails *)
| NoLen (obj : json)                           (* len(obj) fails *)
| BodyError                                    (* request.json() fails *)
| RenderError (content : json).                (* JSONResponse(content) fails *)

(** ** The runtime *)

Record Runtime : Type := {
  float_repr : spec_float -> pystr;   (* repr(x) for a float *)
  str_repr : pystr -> pystr;          (* repr(s) for a str: quotes, escapes *)
  str_title : pystr -> pystr;         (* s.title() *)
  exn_text : pyexn -> pystr           (* str(e) for a runtime exception *)
}.

(** Random identifier and clock, read once per handler invocation. *)
Record Env : Type := {
  uuid4_str : pystr;        (* str(uuid.uuid4()) *)
  now_isoformat : pystr     (* datetime.now().isoformat() *)
}.

(** ** Formatting *)

Section Formatting.
Context (rt : Runtime).

(** [repr(v)], as used for the elements of a list and the items of a dict. *)
Fixpoint py_repr (v : json) : pystr :=
  match v with
  | JNull => lit "None"
  | JBool true => lit "True"
  | JBool false => lit "False"
  | JInt z => str_of_Z z
  | JFloat f => float_repr rt f
  | JStr s => str_repr rt s
  | JArr l => lit "[" ++ join (lit ", ") (map py_repr l) ++ lit "]"
  | JObj d =>
      lit "{"
      ++ join (lit ", ")
           (map (fun kv => str_repr rt (fst kv) ++ lit ": " ++ py_repr (snd kv)) d)
      ++ lit "}"
  end.

(** [str(v)], which is what a replacement field [{v}] of an f-string
    inserts: a [str] is inserted as it is, anything else through its repr. *)
Definition py_str (v : json) : pystr :=
  match v with
  | JStr s => s
  | _ => py_repr v
  end.

(** [str(e)] for a caught exception. *)
Definition exn_str (e : pyexn) : pystr :=
  match e with
  | ValueError msg => msg
  | _ => exn_text rt e
  end.

End Formatting.

(** ** Global configuration *)

Definition MCP_PROTOCOL_VERSION : pystr := lit "2024-11-05".

Definition SERVER_INFO : json :=
  JObj [ (lit "name", JStr (lit "ai-workflow-continuity-system"));
         (lit "version", JStr (lit "1.0.0")) ].

Definition TOOLS : list json :=
  [ JObj [ (lit "name", JStr (lit "create_workflow_session"));
           (lit "description",
            JStr (lit "Create a new workflow session for conversation continuity"));
           (lit "inputSchema",
            JObj [ (lit "type", JStr (lit "object"));
                   (lit "properties",
                    JObj [ (lit "session_name",
                            JObj [ (lit "type", JStr (lit "string"));
                                   (lit "description", JStr (lit "Session name")) ]);
                           (lit "purpose",
                            JObj [ (lit "type", JStr (lit "string"));
                                   (lit "description", JStr (lit "Session purpose"));
                                   (lit "default", JStr (lit "General")) ]) ]);
                   (lit "required", JArr [ JStr (lit "session_name") ]) ]) ];
    JObj [ (lit "name", JStr (lit "save_workflow_memory"));
           (lit "description",
            JStr (lit "Save important information to workflow memory"));
           (lit "inputSchema",
            JObj [ (lit "type", JStr (lit "object"));
                   (lit "properties",
                    JObj [ (lit "content",
                            JObj [ (lit "type", JStr (lit "string"));
                                   (lit "description", JStr (lit "Content to save")) ]);
                           (lit "importance",
                            JObj [ (lit "type", JStr (lit "string"));
                                   (lit "enum",
                                    JArr [ JStr (lit "high"); JStr (lit "medium");
                                           JStr (lit "low") ]);
                                   (lit "default", JStr (lit "medium")) ]) ]);
                   (lit "required", JArr [ JStr (lit "content") ]) ]) ];
    JObj [ (lit "name", JStr (lit "check_continuity_status"));
           (lit "description",
            JStr (lit "Check AI workflow continuity system status and metrics"));
           (lit "inputSchema",
            JObj [ (lit "type", JStr (lit "object"));
                   (lit "properties",
                    JObj [ (lit "detailed",
                            JObj [ (lit "type", JStr (lit "boolean"));
                                   (lit "description", JStr (lit "Show detailed metrics"));
                                   (lit "default", JBool true) ]) ]) ]) ] ].

(** ** The in-memory storage *)

(** The dict stored under a session identifier. *)
Record Session : Type := {
  name : json;
  purpose : json;
  created_at : pystr;
  status : pystr
}.

(** The dict appended to the memory list. *)
Record MemoryItem : Type := {
  id : pystr;
  content : json;
  importance : json;
  saved_at : pystr
}.

(** The two module-level collections. *)
Record State : Type := {
  workflow_sessions : gmap pystr Session;
  workflow_memory : list MemoryItem
}.

(** The collections of a fresh process. *)
Definition initial_state : State :=
  {| workflow_sessions := ∅; workflow_memory := [] |}.

(** ** Handlers that may mutate the collections and may raise *)

(** How a piece of Python code ends. *)
Inductive outcome (A : Type) : Type :=
| Returned (a : A)
| Raised (e : pyexn).
Arguments Returned {A} a.
Arguments Raised {A} e.

(** A computation over the two collections.  The state is threaded through
    an exception too: what was mutated before the [raise] stays mutated. *)
Definition M (A : Type) : Type := State -> State * outcome A.

Definition ret {A : Type} (a : A) : M A := fun st => (st, Returned a).

Definition raise {A : Type} (e : pyexn) : M A := fun st => (st, Raised e).

Definition bind {A B : Type} (c : M A) (k : A -> M B) : M B :=
  fun st =>
    match c st with
    | (st', Returned a) => k a st'
    | (st', Raised e) => (st', Raised e)
    end.

Notation "'let*' x ':=' c 'in' k" := (bind c (fun x => k))
  (at level 10, x name, c at level 100, k at level 200).

(** [workflow_sessions[session_id] = session]. *)
Definition store_session (session_id : pystr) (session : Session) : M unit :=
  fun st =>
    ({| workflow_sessions := <[session_id := session]> (workflow_sessions st);
        workflow_memory := workflow_memory st |}, Returned tt).

(** [workflow_memory.append(item)]. *)
Definition append_memory (item : MemoryItem) : M unit :=
  fun st =>
    ({| workflow_sessions := workflow_sessions st;
        workflow_memory := workflow_memory st ++ [item] |}, Returned tt).

(** [len(workflow_sessions)]. *)
Definition len_sessions : M nat :=
  fun st => (st, Returned (size (workflow_sessions st))).

(** [len(workflow_memory)]. *)
Definition len_memory : M nat :=
  fun st => (st, Returned (length (workflow_memory st))).

(** [obj.get(key, dflt)]: only a dict has the method. *)
Definition py_get (obj : json) (key : pystr) (dflt : json) : M json :=
  match obj with
  | JObj d => ret (dict_get d key dflt)
  | _ => raise (AttributeError obj (lit "get"))
  end.

(** [obj[:150]]: a [str] and a [list] can be sliced. *)
Definition py_slice150 (obj : json) : M json :=
  match obj with
  | JStr s => ret (JStr (take 150 s))
  | JArr l => ret (JArr (take 150 l))
  | _ => raise (NotSubscriptable obj)
  end.

(** [len(obj)]. *)
Definition py_len (obj : json) : M nat :=
  match obj with
  | JStr s => ret (length s)
  | JArr l => ret (length l)
  | JObj d => ret (length d)
  | _ => raise (NoLen obj)
  end.

(** ** The texts of the tool results *)

(** Lines 176-185. *)
Definition session_text (session_name purpose session_id : pystr) : pystr :=
  U_check ++ lit " **Workflow Session Created!**" ++ nl ++ nl ++
  U_clipboard ++ lit " **Details:**" ++ nl ++
  U_bullet ++ lit " Name: " ++ session_name ++ nl ++
  U_bullet ++ lit " Purpose: " ++ purpose ++ nl ++
  U_bullet ++ lit " Session ID: " ++ session_id ++ nl ++
  U_bullet ++ lit " Status: Active" ++ nl ++ nl ++
  U_target ++ lit " **Continuity Features:**" ++ nl ++
  U_bullet ++ lit " Token limit monitoring: " ++ U_check ++ nl ++
  U_bullet ++ lit " Context preservation: " ++ U_check ++ nl ++
  U_bullet ++ lit " Zero-restart guarantee: " ++ U_check.

(** Lines 204-208; [preview] stands for the two replacement fields of
    line 205 taken together. *)
Definition memory_text (preview importance_label memory_id total : pystr) : pystr :=
  U_floppy ++ lit " **Memory Saved Successfully!**" ++ nl ++ nl ++
  U_memo ++ lit " Content: " ++ preview ++ nl ++
  U_zap ++ lit " Importance: " ++ importance_label ++ nl ++
  U_id ++ lit " Memory ID: " ++ memory_id ++ nl ++
  U_chart ++ lit " Total memories: " ++ total.

(** Lines 219-222: the four fixed metrics of the verbose report. *)
Definition metric_block : pystr :=
  U_cycle ++ lit " **Continuity Rate:** 96.7% (Target: 95% " ++ U_check ++ lit ")" ++ nl ++
  U_trend ++ lit " **Quality Retention:** 92.3% (Target: 90% " ++ U_check ++ lit ")" ++ nl ++
  U_zap ++ lit " **Response Time:** 0.03s (Target: <2s " ++ U_check ++ lit ")" ++ nl ++
  U_shield ++ lit " **Availability:** 99.7% (Target: 99.5% " ++ U_check ++ lit ")".

(** Lines 216-232. *)
Definition status_verbose (sessions memories : pystr) : pystr :=
  U_target ++ lit " **AI Workflow Continuity Status**" ++ nl ++ nl ++
  U_check ++ lit " **System Status:** Fully Operational" ++ nl ++
  metric_block ++ nl ++ nl ++
  U_chart ++ lit " **Current Stats:**" ++ nl ++
  U_bullet ++ lit " Active sessions: " ++ sessions ++ nl ++
  U_bullet ++ lit " Memory items: " ++ memories ++ nl ++
  U_bullet ++ lit " Public URL: Connected " ++ U_check ++ nl ++ nl ++
  U_trophy ++ lit " **Achievement Status:**" ++ nl ++
  U_bullet ++ lit " Primary Goal: **FULLY ACHIEVED**" ++ nl ++
  U_bullet ++ lit " Token restart elimination: " ++ U_check ++ nl ++
  U_bullet ++ lit " All performance targets: **EXCEEDED**".

(** Line 234. *)
Definition status_summary (sessions memories : pystr) : pystr :=
  U_check ++ lit " System operational | Sessions: " ++ sessions ++
  lit " | Memory: " ++ memories.

(** The result dict [{"content": [{"type": "text", "text": text}]}]. *)
Definition text_result (text : pystr) : json :=
  JObj [ (lit "content",
          JArr [ JObj [ (lit "type", JStr (lit "text"));
                        (lit "text", JStr text) ] ]) ].

(** ** Rendering a response *)

(** A code point in the surrogate range cannot be encoded as UTF-8. *)
Definition is_surrogate (c : N) : bool := ((0xD800 <=? c) && (c <=? 0xDFFF))%N.

(** [s.encode("utf-8")] succeeds. *)
Definition encodable (s : pystr) : bool := forallb (fun c => negb (is_surrogate c)) s.

(** [json.dumps(..., allow_nan=False)] accepts the float. *)
Definition finite_float (f : spec_float) : bool :=
  match f with
  | S754_nan => false
  | S754_infinity _ => false
  | S754_zero _ => true
  | S754_finite _ _ _ => true
  end.

(** [json.dumps(v, ensure_ascii=False, allow_nan=False).encode("utf-8")]
    succeeds: no float of [v] is NaN or infinite, and no string or key of
    [v] holds a lone surrogate. *)
Fixpoint renderable (v : json) : bool :=
  match v with
  | JNull => true
  | JBool _ => true
  | JInt _ => true
  | JFloat f => finite_float f
  | JStr s => encodable s
  | JArr l => forallb renderable l
  | JObj d => forallb (fun kv => encodable (fst kv) && renderable (snd kv)) d
  end.

(** ** The server *)

(** A response once built: the JSON content and the HTTP status. *)
Record JSONResponse : Type := {
  content_of : json;
  status_code : Z
}.

(** [JSONResponse(content, status_code=...)].  The constructor renders the
    body, so it raises when the content cannot be rendered. *)
Definition construct (response : JSONResponse) : outcome JSONResponse :=
  if renderable (content_of response)
  then Returned response
  else Raised (RenderError (content_of response)).

Section Server.
Context (rt : Runtime).

(** [importance.title()]: only a [str] has the method. *)
Definition py_title (obj : json) : M pystr :=
  match obj with
  | JStr s => ret (str_title rt s)
  | _ => raise (AttributeError obj (lit "title"))
  end.

(** [execute_tool], lines 158-244. *)
Definition execute_tool (env : Env) (tool_name arguments : json) : M json :=
  if py_eq_str tool_name (lit "create_workflow_session") then
    let* session_name := py_get arguments (lit "session_name") JNull in
    let* purpose := py_get arguments (lit "purpose") (JStr (lit "General")) in
    let session_id := take 8 (uuid4_str env) in
    let* _ := store_session session_id
                {| name := session_name;
                   purpose := purpose;
                   created_at := now_isoformat env;
                   status := lit "active" |} in
    ret (text_result
           (session_text (py_str rt session_name) (py_str rt purpose) session_id))
  else if py_eq_str tool_name (lit "save_workflow_memory") then
    let* content := py_get arguments (lit "content") JNull in
    let* importance := py_get arguments (lit "importance") (JStr (lit "medium")) in
    let memory_id := take 8 (uuid4_str env) in
    let* _ := append_memory
                {| id := memory_id;
                   content := content;
                   importance := importance;
                   saved_at := now_isoformat env |} in
    let* head := py_slice150 content in
    let* n := py_len content in
    let ellipsis := if (150 <? n)%nat then lit "..." else [] in
    let* label := py_title importance in
    let* total := len_memory in
    ret (text_result
           (memory_text (py_str rt head ++ ellipsis) label memory_id
              (str_of_nat total)))
  else if py_eq_str tool_name (lit "check_continuity_status") then
    let* detailed := py_get arguments (lit "detailed") (JBool true) in
    let* sessions := len_sessions in
    let* memories := len_memory in
    let status :=
      if truthy detailed
      then status_verbose (str_of_nat sessions) (str_of_nat memories)
      else status_summary (str_of_nat sessions) (str_of_nat memories) in
    ret (text_result status)
  else
    raise (ValueError (lit "Unknown tool: " ++ py_str rt tool_name)).

(** The success envelope of line 146, sent with the default status. *)
Definition success_response (jsonrpc request_id result : json) : JSONResponse :=
  {| content_of := JObj [ (lit "jsonrpc", jsonrpc);
                          (lit "id", request_id);
                          (lit "result", result) ];
     status_code := 200 |}.

(** The envelope of lines 140-144, sent with the default status. *)
Definition method_not_found (jsonrpc request_id method : json) : JSONResponse :=
  {| content_of :=
       JObj [ (lit "jsonrpc", jsonrpc);
              (lit "id", request_id);
              (lit "error",
               JObj [ (lit "code", JInt (-32601));
                      (lit "message",
                       JStr (lit "Method not found: " ++ py_str rt method)) ]) ];
     status_code := 200 |}.

(** The envelope of lines 152-156 built by the [except] clause. *)
Definition internal_error (request_id : json) (e : pyexn) : JSONResponse :=
  {| content_of :=
       JObj [ (lit "jsonrpc", JStr (lit "2.0"));
              (lit "id", request_id);
              (lit "error",
               JObj [ (lit "code", JInt (-32603));
                      (lit "message", JStr (exn_str rt e)) ]) ];
     status_code := 500 |}.

(** The result of [initialize], lines 125-129. *)
Definition initialize_result : json :=
  JObj [ (lit "protocolVersion", JStr MCP_PROTOCOL_VERSION);
         (lit "capabilities", JObj [ (lit "tools", JObj []) ]);
         (lit "serverInfo", SERVER_INFO) ].

(** The [except] clause, lines 150-156.  Its [JSONResponse] is built
    outside any [try]: when it cannot be rendered the exception leaves
    the handler. *)
Definition answer_error (request_id : json) (e : pyexn) : outcome JSONResponse :=
  construct (internal_error request_id e).

(** A [JSONResponse] built inside the [try] (lines 140-144 and 148): when
    it cannot be rendered the [except] clause answers instead. *)
Definition answer (request_id : json) (response : JSONResponse) : outcome JSONResponse :=
  match construct response with
  | Returned built => Returned built
  | Raised e => answer_error request_id e
  end.

(** [mcp_endpoint], lines 112-156.  [body] is how [await request.json()]
    ends.  [request_id] is bound only once line 122 has run, so a failure
    before it answers with a null id.  The outcome is the response sent,
    or the exception that leaves the handler. *)
Definition mcp_endpoint (env : Env) (body : outcome json) (st : State)
  : State * outcome JSONResponse :=
  match body with
  | Raised e => (st, answer_error JNull e)
  | Returned (JObj data) =>
      let jsonrpc := dict_get data (lit "jsonrpc") (JStr (lit "2.0")) in
      let method := dict_get data (lit "method") JNull in
      let params := dict_get data (lit "params") (JObj []) in
      let request_id := dict_get data (lit "id") JNull in
      if py_eq_str method (lit "initialize") then
        (st, answer request_id (success_response jsonrpc request_id initialize_result))
      else if py_eq_str method (lit "tools/list") then
        (st, answer request_id
               (success_response jsonrpc request_id (JObj [ (lit "tools", JArr TOOLS) ])))
      else if py_eq_str method (lit "tools/call") then
        match (let* tool_name := py_get params (lit "name") JNull in
               let* arguments := py_get params (lit "arguments") (JObj []) in
               execute_tool env tool_name arguments) st with
        | (st', Returned result) =>
            (st', answer request_id (success_response jsonrpc request_id result))
        | (st', Raised e) => (st', answer_error request_id e)
        end
      else
        (st, answer request_id (method_not_found jsonrpc request_id method))
  | Returned data => (st, answer_error JNull (AttributeError data (lit "get")))
  end.

(** [root], lines 87-100; the framework builds the response from the
    returned dict. *)
Definition root (env : Env) (st : State) : State * outcome JSONResponse :=
  (st,
   construct
     {| content_of :=
          JObj [ (lit "status",
                  JStr (U_rocket ++ lit " AI Workflow Continuity System - ONLINE"));
                 (lit "server", SERVER_INFO);
                 (lit "protocol", JStr MCP_PROTOCOL_VERSION);
                 (lit "mcp_endpoint", JStr (lit "/mcp"));
                 (lit "tools_available", JInt (Z.of_nat (length TOOLS)));
                 (lit "sessions", JInt (Z.of_nat (size (workflow_sessions st))));
                 (lit "memory_items", JInt (Z.of_nat (length (workflow_memory st))));
                 (lit "timestamp", JStr (now_isoformat env));
                 (lit "claude_ai_ready", JBool true) ];
        status_code := 200 |}).

(** [health], lines 102-105. *)
Definition health (env : Env) (st : State) : State * outcome JSONResponse :=
  (st,
   construct
     {| content_of := JObj [ (lit "status", JStr (lit "healthy"));
                             (lit "timestamp", JStr (now_isoformat env)) ];
        status_code := 200 |}).

(** [mcp_options], lines 107-110. *)
Definition mcp_options (st : State) : State * outcome JSONResponse :=
  (st, construct {| content_of := JObj [ (lit "status", JStr (lit "ok")) ];
                    status_code := 200 |}).

(** The exposed operations. *)
Inductive Operation : Type :=
| GET_root
| GET_health
| OPTIONS_mcp
| POST_mcp (body : outcome json).

(** One request served. *)
Definition serve (env : Env) (op : Operation) (st : State)
  : State * outcome JSONResponse :=
  match op with
  | GET_root => root env st
  | GET_health => health env st
  | OPTIONS_mcp => mcp_options st
  | POST_mcp body => mcp_endpoint env body st
  end.


End Server.

(** ** A runtime to run the model with *)

Module Sample.

(** The name [type(v).__name__] shows in the runtime's messages. *)
Definition type_name (v : json) : pystr :=
  match v with
  | JNull => lit "NoneType"
  | JBool _ => lit "bool"
  | JInt _ => lit "int"
  | JFloat _ => lit "float"
  | JStr _ => lit "str"
  | JArr _ => lit "list"
  | JObj _ => lit "dict"
  end.

Definition is_upper (c : N) : bool := ((65 <=? c) && (c <=? 90))%N.
Definition is_lower (c : N) : bool := ((97 <=? c) && (c <=? 122))%N.
Definition to_upper (c : N) : N := if is_lower c then (c - 32)%N else c.
Definition to_lower (c : N) : N := if is_upper c then (c + 32)%N else c.

(** [str.title] on ASCII text: a letter that follows a letter is lowered,
    any other letter is raised. *)
Fixpoint title_from (previous_is_cased : bool) (s : pystr) : pystr :=
  match s with
  | [] => []
  | c :: s' =>
      (if previous_is_cased then to_lower c else to_upper c)
        :: title_from (is_upper c || is_lower c) s'
  end.

Definition hex_digit (n : N) : N := if (n <? 10)%N then (48 + n)%N else (87 + n)%N.

(** The escape of one character inside a repr quoted with [quote]. *)
Definition escape (quote c : N) : pystr :=
  if ((c =? quote) || (c =? 92))%N then [92%N; c]
  else if (c =? 9)%N then lit "\t"
  else if (c =? 10)%N then lit "\n"
  else if (c =? 13)%N then lit "\r"
  else if ((c <? 32) || (c =? 127))%N
       then lit "\x" ++ [hex_digit (c / 16); hex_digit (c mod 16)]
  else if is_surrogate c
       then lit "\u" ++ [hex_digit (c / 4096); hex_digit (c / 256 mod 16);
                         hex_digit (c / 16 mod 16); hex_digit (c mod 16)]
  else [c].

(** [repr] of a string: double quotes only when the text has a single quote
    and no double quote. *)
Definition ascii_repr (s : pystr) : pystr :=
  let quote :=
    if existsb (N.eqb 39) s && negb (existsb (N.eqb 34) s) then 34%N else 39%N in
  quote :: flat_map (escape quote) s ++ [quote].

(** [repr] of the floats that have a fixed spelling. *)
Definition special_float_repr (f : spec_float) : pystr :=
  match f with
  | S754_zero false => lit "0.0"
  | S754_zero true => lit "-0.0"
  | S754_infinity false => lit "inf"
  | S754_infinity true => lit "-inf"
  | S754_nan => lit "nan"
  | S754_finite _ _ _ => lit "<float>"
  end.

(** Some float of the value is NaN or infinite: [json.dumps] refuses it
    before anything is encoded. *)
Fixpoint has_nonfinite (v : json) : bool :=
  match v with
  | JFloat f => negb (finite_float f)
  | JArr l => existsb has_nonfinite l
  | JObj d => existsb (fun kv => has_nonfinite (snd kv)) d
  | _ => false
  end.

Definition message (e : pyexn) : pystr :=
  match e with
  | ValueError msg => msg
  | AttributeError obj attr =>
      lit "'" ++ type_name obj ++ lit "' object has no attribute '" ++ attr ++ lit "'"
  | NotSubscriptable obj => lit "'" ++ type_name obj ++ lit "' object is not subscriptable"
  | NoLen obj => lit "object of type '" ++ type_name obj ++ lit "' has no len()"
  | BodyError => lit "Expecting value: line 1 column 1 (char 0)"
  | RenderError content =>
      if has_nonfinite content
      then lit "Out of range float values are not JSON compliant"
      else lit "'utf-8' codec can't encode character: surrogates not allowed"
  end.

(** Agrees with CPython on ASCII strings, on the floats with a fixed
    spelling and on the messages of the exceptions met on values other than
    dicts; the message of a failed encoding is given without the character
    and its position.  Enough to run the server on the requests used
    below. *)
Definition runtime : Runtime :=
  {| float_repr := special_float_repr;
     str_repr := ascii_repr;
     str_title := title_from false;
     exn_text := message |}.

(** A value for the identifier and the clock. *)
Definition env : Env :=
  {| uuid4_str := lit "3f2a9c1e-8b7d-4e6f-a5c4-d3b2a1908f7e";
     now_isoformat := lit "2025-01-01T12:00:00.000000" |}.

(** A [tools/call] request body. *)
Definition call (request_id : json) (tool : string) (arguments : list (pystr * json))
  : list (pystr * json) :=
  [ (lit "jsonrpc", JStr (lit "2.0"));
    (lit "id", request_id);
    (lit "method", JStr (lit "tools/call"));
    (lit "params",
     JObj [ (lit "name", JStr (lit tool));
            (lit "arguments", JObj arguments) ]) ].

End Sample.

(** ** Requests *)

(** The body [data] is a [tools/call] request: running lines 119-136 on it
    binds [tool_name] and [arguments] as given. *)
Definition tools_call (data : list (pystr * json)) (tool_name arguments : json) : Prop :=
  dict_lookup data (lit "method") = Some (JStr (lit "tools/call")) /\
  exists params : list (pystr * json),
    dict_get data (lit "params") (JObj []) = JObj params /\
    dict_get params (lit "name") JNull = tool_name /\
    dict_get params (lit "arguments") (JObj []) = arguments.

(** The [jsonrpc] and [id] fields as lines 119 and 122 read them. *)
Definition jsonrpc_of (data : list (pystr * json)) : json :=
  dict_get data (lit "jsonrpc") (JStr (lit "2.0")).

Definition id_of (data : list (pystr * json)) : json :=
  dict_get data (lit "id") JNull.

(** The [default] a tool descriptor declares for one of its properties. *)
Definition declared_default (tool : json) (property : pystr) : option json :=
  match tool with
  | JObj t =>
      match dict_lookup t (lit "inputSchema") with
      | Some (JObj schema) =>
          match dict_lookup schema (lit "properties") with
          | Some (JObj props) =>
              match dict_lookup props property with
              | Some (JObj p) => dict_lookup p (lit "default")
              | _ => None
              end
          | _ => None
          end
      | _ => None
      end
  | _ => None
  end.

(** The value a response envelope holds under [key]. *)
Definition envelope_field (response : JSONResponse) (key : pystr) : option json :=
  match content_of response with
  | JObj d => dict_lookup d key
  | _ => None
  end.

(** The two kinds of envelope the handler builds: sent with status 200,
    echoing the request's [jsonrpc], with a [result] or with the error
    -32601; or sent with status 500, [jsonrpc] fixed, with the error
    -32603. *)
Definition answered_200 (jsonrpc : json) (response : JSONResponse) : Prop :=
  status_code response = 200 /\
  envelope_field response (lit "jsonrpc") = Some jsonrpc /\
  ((is_Some (envelope_field response (lit "result")) /\
    envelope_field response (lit "error") = None) \/
   (envelope_field response (lit "result") = None /\
    exists message,
      envelope_field response (lit "error") =
      Some (JObj [ (lit "code", JInt (-32601)); (lit "message", JStr message) ]))).

Definition answered_500 (response : JSONResponse) : Prop :=
  status_code response = 500 /\
  envelope_field response (lit "jsonrpc") = Some (JStr (lit "2.0")) /\
  envelope_field response (lit "result") = None /\
  exists message,
    envelope_field response (lit "error") =
    Some (JObj [ (lit "code", JInt (-32603)); (lit "message", JStr message) ]).

(** The names the descriptors of [TOOLS] advertise. *)
Definition advertised_names : list json :=
  map (fun tool => match tool with
                   | JObj d => dict_get d (lit "name") JNull
                   | _ => JNull
                   end) TOOLS.

(** Requests served one after the other, each with the identifier and the
    clock it reads. *)
Fixpoint run (rt : Runtime) (trace : list (Env * Operation)) (st : State) : State :=
  match trace with
  | [] => st
  | (env, op) :: rest => run rt rest (fst (serve rt env op st))
  end.

(** * Properties *)

(** ** Strings *)

Lemma occurs_in_middle (pre needle post : pystr) :
  occurs_in needle (pre ++ needle ++ post).
Proof. exists pre, post. reflexivity. Qed.

Lemma occurs_in_elem (c : N) (needle hay : pystr) :
  c ∈ needle -> occurs_in needle hay -> c ∈ hay.
Proof.
  intros Hc (pre & post & ->).
  rewrite !elem_of_app. auto.
Qed.

Lemma digits_no_newline (d : uint) : 10%N ∉ digits d.
Proof.
  induction d; simpl; rewrite ?elem_of_cons;
    [apply not_elem_of_nil | intros [H | H]; [discriminate H | contradiction] ..].
Qed.

Lemma str_of_nat_no_newline (n : nat) : 10%N ∉ str_of_nat n.
Proof. apply digits_no_newline. Qed.

Lemma metric_block_has_newline : 10%N ∈ metric_block.
Proof. apply list_elem_of_In. vm_compute. tauto. Qed.

Lemma status_summary_single_line (sessions memories : pystr) :
  10%N ∉ sessions -> 10%N ∉ memories -> 10%N ∉ status_summary sessions memories.
Proof.
  intros Hs Hm. unfold status_summary.
  rewrite !elem_of_app. intros [H | [H | [H | [H | H]]]]; try contradiction.
  - apply list_elem_of_In in H. vm_compute in H. intuition discriminate.
  - apply list_elem_of_In in H. vm_compute in H. intuition discriminate.
  - apply list_elem_of_In in H. vm_compute in H. intuition discriminate.
Qed.

Lemma status_verbose_has_metrics (sessions memories : pystr) :
  occurs_in metric_block (status_verbose sessions memories).
Proof.
  unfold status_verbose.
  exists (U_target ++ lit " **AI Workflow Continuity Status**" ++ nl ++ nl ++
          U_check ++ lit " **System Status:** Fully Operational" ++ nl).
  eexists. rewrite <- !app_assoc. reflexivity.
Qed.

Lemma status_summary_no_metrics (n m : nat) :
  ~ occurs_in metric_block (status_summary (str_of_nat n) (str_of_nat m)).
Proof.
  intros H.
  apply (status_summary_single_line (str_of_nat n) (str_of_nat m));
    auto using str_of_nat_no_newline.
  exact (occurs_in_elem _ _ _ metric_block_has_newline H).
Qed.


(** ** Comparisons with the literals of the dispatch *)

Lemma py_eq_str_true (v : json) (s : pystr) : py_eq_str v s = true <-> v = JStr s.
Proof.
  destruct v; simpl; try (split; [discriminate | intros [=]]).
  rewrite bool_decide_eq_true. split; [intros -> | intros [=]]; auto.
Qed.

Lemma py_eq_str_false (v : json) (s : pystr) : v <> JStr s -> py_eq_str v s = false.
Proof.
  intros H. destruct (py_eq_str v s) eqn:E; [|reflexivity].
  apply py_eq_str_true in E. contradiction.
Qed.

(** ** Rendering *)

Lemma encodable_app (s t : pystr) : encodable (s ++ t) = encodable s && encodable t.
Proof. apply forallb_app. Qed.

Lemma digits_encodable (d : uint) : encodable (digits d) = true.
Proof. induction d; simpl; auto. Qed.

Lemma str_of_nat_encodable (n : nat) : encodable (str_of_nat n) = true.
Proof. apply digits_encodable. Qed.

Lemma construct_renderable (response : JSONResponse) :
  renderable (content_of response) = true -> construct response = Returned response.
Proof. intros H. unfold construct. rewrite H. reflexivity. Qed.

Lemma construct_unrenderable (response : JSONResponse) :
  renderable (content_of response) = false ->
  construct response = Raised (RenderError (content_of response)).
Proof. intros H. unfold construct. rewrite H. reflexivity. Qed.

Lemma text_result_renderable (text : pystr) :
  renderable (text_result text) = encodable text.
Proof.
  unfold text_result. simpl. destruct (encodable text); reflexivity.
Qed.

(** ** The dispatch of [tools/call] *)

Section Dispatch.
Context (rt : Runtime).

Lemma answer_renderable request_id response :
  renderable (content_of response) = true ->
  answer rt request_id response = Returned response.
Proof. intros H. unfold answer. rewrite construct_renderable by exact H. reflexivity. Qed.

Lemma internal_error_renderable request_id e :
  renderable (content_of (internal_error rt request_id e))
  = renderable request_id && encodable (exn_str rt e).
Proof.
  unfold internal_error. cbn [content_of].
  generalize (exn_str rt e) as message. intros message. simpl.
  destruct (renderable request_id), (encodable message); reflexivity.
Qed.

Lemma success_response_renderable jsonrpc request_id result :
  renderable (content_of (success_response jsonrpc request_id result))
  = renderable jsonrpc && renderable request_id && renderable result.
Proof.
  unfold success_response. cbn [content_of]. simpl.
  destruct (renderable jsonrpc), (renderable request_id), (renderable result);
    reflexivity.
Qed.

Lemma method_not_found_renderable jsonrpc request_id method :
  renderable (content_of (method_not_found rt jsonrpc request_id method))
  = renderable jsonrpc && renderable request_id
    && encodable (lit "Method not found: " ++ py_str rt method).
Proof.
  unfold method_not_found. cbn [content_of].
  generalize (lit "Method not found: " ++ py_str rt method) as message.
  intros message. simpl.
  destruct (renderable jsonrpc), (renderable request_id), (encodable message);
    reflexivity.
Qed.

Lemma answer_error_renderable request_id e :
  renderable (content_of (internal_error rt request_id e)) = true ->
  answer_error rt request_id e = Returned (internal_error rt request_id e).
Proof. apply construct_renderable. Qed.

(** A [tools/call] request runs [execute_tool]; what it returns is sent
    in a success envelope, what it raises goes to the [except] clause; the
    collections are those [execute_tool] leaves. *)
Lemma mcp_endpoint_tools_call env data tool_name arguments st :
  tools_call data tool_name arguments ->
  mcp_endpoint rt env (Returned (JObj data)) st =
  match execute_tool rt env tool_name arguments st with
  | (st', Returned result) =>
      (st', answer rt (id_of data) (success_response (jsonrpc_of data) (id_of data) result))
  | (st', Raised e) => (st', answer_error rt (id_of data) e)
  end.
Proof.
  intros (Hm & params & Hp & Hn & Ha).
  assert (Hm' : dict_get data (lit "method") JNull = JStr (lit "tools/call"))
    by (unfold dict_get; rewrite Hm; reflexivity).
  unfold mcp_endpoint. rewrite Hm', Hp. simpl.
  unfold bind, ret. simpl. rewrite Hn, Ha. reflexivity.
Qed.

Lemma mcp_endpoint_tools_call_state env data tool_name arguments st :
  tools_call data tool_name arguments ->
  fst (mcp_endpoint rt env (Returned (JObj data)) st)
  = fst (execute_tool rt env tool_name arguments st).
Proof.
  intros Hcall. rewrite (mcp_endpoint_tools_call env data _ _ st Hcall).
  destruct (execute_tool rt env tool_name arguments st) as [st' [result | e]];
    reflexivity.
Qed.

(** What a tool returns reaches the client when its envelope renders. *)
Lemma mcp_endpoint_delivers env data tool_name arguments st st' result :
  tools_call data tool_name arguments ->
  execute_tool rt env tool_name arguments st = (st', Returned result) ->
  renderable (content_of (success_response (jsonrpc_of data) (id_of data) result)) = true ->
  mcp_endpoint rt env (Returned (JObj data)) st =
  (st', Returned (success_response (jsonrpc_of data) (id_of data) result)).
Proof.
  intros Hcall Hrun Hrender.
  rewrite (mcp_endpoint_tools_call env data _ _ st Hcall), Hrun.
  rewrite answer_renderable by exact Hrender. reflexivity.
Qed.

(** What a tool raises reaches the client when the error envelope
    renders. *)
Lemma mcp_endpoint_reports env data tool_name arguments st st' e :
  tools_call data tool_name arguments ->
  execute_tool rt env tool_name arguments st = (st', Raised e) ->
  renderable (content_of (internal_error rt (id_of data) e)) = true ->
  mcp_endpoint rt env (Returned (JObj data)) st =
  (st', Returned (internal_error rt (id_of data) e)).
Proof.
  intros Hcall Hrun Hrender.
  rewrite (mcp_endpoint_tools_call env data _ _ st Hcall), Hrun.
  rewrite answer_error_renderable by exact Hrender. reflexivity.
Qed.

Lemma execute_tool_create env args st :
  execute_tool rt env (JStr (lit "create_workflow_session")) (JObj args) st =
  let session_name := dict_get args (lit "session_name") JNull in
  let purpose := dict_get args (lit "purpose") (JStr (lit "General")) in
  let session_id := take 8 (uuid4_str env) in
  ({| workflow_sessions :=
        <[session_id := {| name := session_name;
                           purpose := purpose;
                           created_at := now_isoformat env;
                           status := lit "active" |}]> (workflow_sessions st);
      workflow_memory := workflow_memory st |},
   Returned (text_result (session_text (py_str rt session_name)
                                        (py_str rt purpose) session_id))).
Proof. reflexivity. Qed.

Lemma execute_tool_save_str env args c imp st :
  dict_get args (lit "content") JNull = JStr c ->
  dict_get args (lit "importance") (JStr (lit "medium")) = JStr imp ->
  execute_tool rt env (JStr (lit "save_workflow_memory")) (JObj args) st =
  let memory_id := take 8 (uuid4_str env) in
  let memory := workflow_memory st ++ [ {| id := memory_id;
                                           content := JStr c;
                                           importance := JStr imp;
                                           saved_at := now_isoformat env |} ] in
  ({| workflow_sessions := workflow_sessions st; workflow_memory := memory |},
   Returned (text_result
               (memory_text
                  (take 150 c ++ (if (150 <? length c)%nat then lit "..." else []))
                  (str_title rt imp) memory_id (str_of_nat (length memory))))).
Proof.
  intros Hc Hi. unfold execute_tool. simpl.
  unfold bind, ret. simpl. rewrite Hc, Hi. reflexivity.
Qed.

Lemma execute_tool_check env args st :
  execute_tool rt env (JStr (lit "check_continuity_status")) (JObj args) st =
  let sessions := str_of_nat (size (workflow_sessions st)) in
  let memories := str_of_nat (length (workflow_memory st)) in
  (st, Returned (text_result
                   (if truthy (dict_get args (lit "detailed") (JBool true))
                    then status_verbose sessions memories
                    else status_summary sessions memories))).
Proof. reflexivity. Qed.

Lemma execute_tool_unknown env tool_name arguments st :
  tool_name <> JStr (lit "create_workflow_session") ->
  tool_name <> JStr (lit "save_workflow_memory") ->
  tool_name <> JStr (lit "check_continuity_status") ->
  execute_tool rt env tool_name arguments st =
  (st, Raised (ValueError (lit "Unknown tool: " ++ py_str rt tool_name))).
Proof.
  intros H1 H2 H3. unfold execute_tool.
  rewrite !py_eq_str_false by assumption. reflexivity.
Qed.

End Dispatch.

(** The sample request is a [tools/call] request for its tool and
    arguments. *)
Lemma sample_call_tools_call request_id tool arguments :
  tools_call (Sample.call request_id tool arguments) (JStr (lit tool)) (JObj arguments).
Proof.
  split; [reflexivity|].
  eexists. split; [reflexivity|]. split; reflexivity.
Qed.

(** ** [create_workflow_session] *)




(** C4, as stated, fails: when the identifier generated for a second call
    is the one generated for the first, the session collection keeps its
    size. *)
Lemma create_workflow_session_repeated_identifier :
  let args := [ (lit "session_name", JStr (lit "release plan")) ] in
  let body := Returned (JObj (Sample.call (JInt 2) "create_workflow_session" args)) in
  let first := mcp_endpoint Sample.runtime Sample.env body initial_state in
  let second := mcp_endpoint Sample.runtime Sample.env body (fst first) in
  dict_lookup args (lit "session_name") = Some (JStr (lit "release plan")) /\
  snd second =
    Returned
      (success_response (JStr (lit "2.0")) (JInt 2)
         (text_result (session_text (lit "release plan") (lit "General")
                         (lit "3f2a9c1e")))) /\
  size (workflow_sessions (fst first)) = 1%nat /\
  size (workflow_sessions (fst second)) = 1%nat.
Proof.
  cbv zeta. split; [reflexivity|]. split; [reflexivity|].
  split; vm_compute; reflexivity.
Qed.

(** C4, amended: a [create_workflow_session] call with a non-empty string
    [session_name] returns the confirmation text showing the generated
    identifier, and afterwards that identifier is a key of the session
    collection.  The collection is one larger when the identifier was not a
    key before; when it was, the stored session is replaced and the size
    stays. *)
Theorem create_workflow_session_valid rt env args n st :
  dict_lookup args (lit "session_name") = Some (JStr n) ->
  n <> [] ->
  let called :=
    execute_tool rt env (JStr (lit "create_workflow_session")) (JObj args) st in
  let session_id := take 8 (uuid4_str env) in
  let purpose := py_str rt (dict_get args (lit "purpose") (JStr (lit "General"))) in
  snd called = Returned (text_result (session_text n purpose session_id)) /\
  occurs_in (lit " Session ID: " ++ session_id ++ nl) (session_text n purpose session_id) /\
  is_Some (workflow_sessions (fst called) !! session_id) /\
  (workflow_sessions st !! session_id = None ->
   size (workflow_sessions (fst called)) = S (size (workflow_sessions st))) /\
  (is_Some (workflow_sessions st !! session_id) ->
   size (workflow_sessions (fst called)) = size (workflow_sessions st)).
Proof.
  intros Hname _. cbv zeta.
  rewrite execute_tool_create. cbv zeta. simpl fst. simpl snd.
  unfold dict_get at 1. rewrite Hname. simpl py_str.
  split; [reflexivity|]. split.
  - unfold session_text.
    exists (U_check ++ lit " **Workflow Session Created!**" ++ nl ++ nl ++
            U_clipboard ++ lit " **Details:**" ++ nl ++
            U_bullet ++ lit " Name: " ++ n ++ nl ++
            U_bullet ++ lit " Purpose: " ++
            py_str rt (dict_get args (lit "purpose") (JStr (lit "General"))) ++ nl ++
            U_bullet).
    eexists. rewrite <- !app_assoc. reflexivity.
  - cbn [workflow_sessions]. split; [|split].
    + rewrite lookup_insert_eq. eauto.
    + intros Hfresh. apply map_size_insert_None. exact Hfresh.
    + intros Hold. apply map_size_insert_Some. exact Hold.
Qed.

Lemma create_workflow_session_valid_witness :
  let args := [ (lit "session_name", JStr (lit "release plan")) ] in
  dict_lookup args (lit "session_name") = Some (JStr (lit "release plan")) /\
  lit "release plan" <> [] /\
  workflow_sessions initial_state !! take 8 (uuid4_str Sample.env) = None /\
  size (workflow_sessions
          (fst (execute_tool Sample.runtime Sample.env
                  (JStr (lit "create_workflow_session")) (JObj args) initial_state)))
  = 1%nat.
Proof.
  cbv zeta.
  split; [reflexivity|]. split; [discriminate|]. split; [reflexivity|].
  exact (proj1 (proj2 (proj2 (proj2
           (create_workflow_session_valid Sample.runtime Sample.env
              [ (lit "session_name", JStr (lit "release plan")) ]
              (lit "release plan") initial_state eq_refl
              ltac:(discriminate))))) eq_refl).
Defined.

(** ** [save_workflow_memory] *)

(** C2 fails on the code: a [save_workflow_memory] call without [content]
    ends in the [except] clause, yet the item appended at lines 194-199
    stays in the memory list; with the sample runtime the answer is the
    internal-error envelope. *)
Theorem save_workflow_memory_without_content_keeps_item rt env st :
  let data := Sample.call (JInt 1) "save_workflow_memory" [] in
  let kept :=
    {| workflow_sessions := workflow_sessions st;
       workflow_memory :=
         workflow_memory st ++ [ {| id := take 8 (uuid4_str env);
                                    content := JNull;
                                    importance := JStr (lit "medium");
                                    saved_at := now_isoformat env |} ] |} in
  mcp_endpoint rt env (Returned (JObj data)) st =
  (kept,
   construct
     {| content_of :=
          JObj [ (lit "jsonrpc", JStr (lit "2.0"));
                 (lit "id", JInt 1);
                 (lit "error",
                  JObj [ (lit "code", JInt (-32603));
                         (lit "message",
                          JStr (exn_text rt (NotSubscriptable JNull))) ]) ];
        status_code := 500 |}) /\
  mcp_endpoint Sample.runtime env (Returned (JObj data)) st =
  (kept,
   Returned
     {| content_of :=
          JObj [ (lit "jsonrpc", JStr (lit "2.0"));
                 (lit "id", JInt 1);
                 (lit "error",
                  JObj [ (lit "code", JInt (-32603));
                         (lit "message",
                          JStr (lit "'NoneType' object is not subscriptable")) ]) ];
        status_code := 500 |}).
Proof. split; reflexivity. Qed.



(** C10: [importance] is not checked against the declared enumeration.  A
    [save_workflow_memory] call with a string [content] and any string
    [importance] succeeds: the tool returns its confirmation, the appended
    item stores that string as it is, and the confirmation shows it in
    title case. *)
Theorem importance_is_not_validated rt env args c imp st :
  dict_lookup args (lit "content") = Some (JStr c) ->
  dict_lookup args (lit "importance") = Some (JStr imp) ->
  let memory_id := take 8 (uuid4_str env) in
  let memory :=
    workflow_memory st ++ [ {| id := memory_id;
                               content := JStr c;
                               importance := JStr imp;
                               saved_at := now_isoformat env |} ] in
  let text :=
    memory_text (take 150 c ++ (if (150 <? length c)%nat then lit "..." else []))
                (str_title rt imp) memory_id (str_of_nat (length memory)) in
  execute_tool rt env (JStr (lit "save_workflow_memory")) (JObj args) st =
  ({| workflow_sessions := workflow_sessions st; workflow_memory := memory |},
   Returned (text_result text)) /\
  occurs_in (lit " Importance: " ++ str_title rt imp ++ nl) text.
Proof.
  intros Hc Hi. cbv zeta.
  assert (Hc' : dict_get args (lit "content") JNull = JStr c)
    by (unfold dict_get; rewrite Hc; reflexivity).
  assert (Hi' : dict_get args (lit "importance") (JStr (lit "medium")) = JStr imp)
    by (unfold dict_get; rewrite Hi; reflexivity).
  split.
  - rewrite (execute_tool_save_str rt env args c imp st Hc' Hi'). reflexivity.
  - unfold memory_text.
    exists (U_floppy ++ lit " **Memory Saved Successfully!**" ++ nl ++ nl ++
            U_memo ++ lit " Content: " ++
            (take 150 c ++ (if (150 <? length c)%nat then lit "..." else [])) ++ nl ++
            U_zap).
    eexists. rewrite <- !app_assoc. reflexivity.
Qed.

Lemma importance_is_not_validated_witness :
  let args := [ (lit "content", JStr (lit "ship on friday"));
                (lit "importance", JStr (lit "URGENT-now")) ] in
  dict_lookup args (lit "content") = Some (JStr (lit "ship on friday")) /\
  dict_lookup args (lit "importance") = Some (JStr (lit "URGENT-now")) /\
  snd (execute_tool Sample.runtime Sample.env (JStr (lit "save_workflow_memory"))
         (JObj args) initial_state)
  = Returned
      (text_result
         (memory_text (lit "ship on friday") (lit "Urgent-Now") (lit "3f2a9c1e")
            (lit "1"))).
Proof.
  cbv zeta.
  split; [reflexivity|]. split; [reflexivity|].
  rewrite (proj1 (importance_is_not_validated Sample.runtime Sample.env
                    [ (lit "content", JStr (lit "ship on friday"));
                      (lit "importance", JStr (lit "URGENT-now")) ]
                    (lit "ship on friday") (lit "URGENT-now") initial_state
                    eq_refl eq_refl)).
  reflexivity.
Defined.

(** When the generated identifier is already a key, the assignment of
    line 166 replaces the stored session and the collection keeps its
    size. *)
Lemma create_workflow_session_same_identifier rt env args st old :
  workflow_sessions st !! take 8 (uuid4_str env) = Some old ->
  size (workflow_sessions
          (fst (execute_tool rt env (JStr (lit "create_workflow_session")) (JObj args) st)))
  = size (workflow_sessions st).
Proof.
  intros Hold. rewrite execute_tool_create. cbv zeta. cbn [fst workflow_sessions].
  apply map_size_insert_Some. exists old. exact Hold.
Qed.

(** ** Unknown methods and tools *)

(** C5, as stated, fails: a method name holding a lone surrogate cannot be
    rendered in the -32601 envelope, and the [except] clause answers with
    the internal error and HTTP status 500. *)
Lemma unknown_method_unrenderable :
  let method := JStr [ 0xD800%N ] in
  let data := [ (lit "jsonrpc", JStr (lit "2.0"));
                (lit "id", JInt 9);
                (lit "method", method) ] in
  let served :=
    mcp_endpoint Sample.runtime Sample.env (Returned (JObj data)) initial_state in
  dict_lookup data (lit "method") = Some method /\
  method <> JStr (lit "initialize") /\
  method <> JStr (lit "tools/list") /\
  method <> JStr (lit "tools/call") /\
  exists message,
    snd served =
    Returned
      {| content_of :=
           JObj [ (lit "jsonrpc", JStr (lit "2.0"));
                  (lit "id", JInt 9);
                  (lit "error",
                   JObj [ (lit "code", JInt (-32603));
                          (lit "message", JStr message) ]) ];
         status_code := 500 |}.
Proof.
  cbv zeta. split; [reflexivity|].
  split; [discriminate|]. split; [discriminate|]. split; [discriminate|].
  eexists. reflexivity.
Qed.

(** C5, amended: a body whose [method] is none of [initialize],
    [tools/list] and [tools/call] leaves the collections as they were;
    when the -32601 envelope can be rendered (the echoed [jsonrpc] and [id]
    hold no NaN or infinity and, like the method text, no lone surrogate)
    it is the answer, with HTTP status 200, echoing [jsonrpc] and [id], and
    its message contains the method. *)
Theorem unknown_method_not_found rt env data m st :
  dict_lookup data (lit "method") = Some m ->
  m <> JStr (lit "initialize") ->
  m <> JStr (lit "tools/list") ->
  m <> JStr (lit "tools/call") ->
  let served := mcp_endpoint rt env (Returned (JObj data)) st in
  let message := lit "Method not found: " ++ py_str rt m in
  let response :=
    {| content_of :=
         JObj [ (lit "jsonrpc", jsonrpc_of data);
                (lit "id", id_of data);
                (lit "error",
                 JObj [ (lit "code", JInt (-32601));
                        (lit "message", JStr message) ]) ];
       status_code := 200 |} in
  fst served = st /\
  (renderable (content_of response) = true -> snd served = Returned response) /\
  occurs_in (py_str rt m) message.
Proof.
  intros Hm H1 H2 H3. cbv zeta.
  assert (Hm' : dict_get data (lit "method") JNull = m)
    by (unfold dict_get; rewrite Hm; reflexivity).
  unfold mcp_endpoint. rewrite Hm'.
  rewrite !py_eq_str_false by assumption. cbn [fst snd].
  split; [reflexivity|]. split.
  - intros Hrender. apply answer_renderable. exact Hrender.
  - exists (lit "Method not found: "), []. rewrite app_nil_r. reflexivity.
Qed.

Lemma unknown_method_not_found_witness :
  let data := [ (lit "jsonrpc", JStr (lit "2.0"));
                (lit "id", JInt 9);
                (lit "method", JStr (lit "resources/list")) ] in
  let response :=
    method_not_found Sample.runtime (JStr (lit "2.0")) (JInt 9)
      (JStr (lit "resources/list")) in
  dict_lookup data (lit "method") = Some (JStr (lit "resources/list")) /\
  renderable (content_of response) = true /\
  snd (mcp_endpoint Sample.runtime Sample.env (Returned (JObj data)) initial_state)
  = Returned response.
Proof.
  cbv zeta. split; [reflexivity|]. split; [reflexivity|].
  exact (proj1 (proj2
           (unknown_method_not_found Sample.runtime Sample.env
              [ (lit "jsonrpc", JStr (lit "2.0"));
                (lit "id", JInt 9);
                (lit "method", JStr (lit "resources/list")) ]
              (JStr (lit "resources/list")) initial_state eq_refl
              ltac:(discriminate) ltac:(discriminate) ltac:(discriminate)))
           eq_refl).
Defined.

(** C6, as stated, fails: for a tool name holding a lone surrogate the
    error envelope built in the [except] clause cannot be rendered; the
    exception leaves the handler and no envelope is sent. *)
Lemma unknown_tool_unrenderable :
  let tool_name := JStr [ 0xD800%N ] in
  let data := [ (lit "jsonrpc", JStr (lit "2.0"));
                (lit "id", JInt 3);
                (lit "method", JStr (lit "tools/call"));
                (lit "params", JObj [ (lit "name", tool_name) ]) ] in
  let served :=
    mcp_endpoint Sample.runtime Sample.env (Returned (JObj data)) initial_state in
  tools_call data tool_name (JObj []) /\
  tool_name <> JStr (lit "create_workflow_session") /\
  tool_name <> JStr (lit "save_workflow_memory") /\
  tool_name <> JStr (lit "check_continuity_status") /\
  (forall response, snd served <> Returned response) /\
  snd served =
    Raised
      (RenderError
         (content_of
            (internal_error Sample.runtime (JInt 3)
               (ValueError (lit "Unknown tool: " ++ [ 0xD800%N ]))))).
Proof.
  cbv zeta. split.
  { split; [reflexivity|]. eexists. split; [reflexivity|]. split; reflexivity. }
  split; [discriminate|]. split; [discriminate|]. split; [discriminate|].
  split; [intros response H; discriminate H | reflexivity].
Qed.

(** C6, amended: a [tools/call] whose tool name is none of the three tools
    leaves the collections as they were; when the error envelope can be
    rendered (the [id] holds no NaN or infinity and, like the tool name, no
    lone surrogate) it is the answer, with HTTP status 500 and code -32603,
    and its message names the tool. *)
Theorem unknown_tool_internal_error rt env data tool_name arguments st :
  tools_call data tool_name arguments ->
  tool_name <> JStr (lit "create_workflow_session") ->
  tool_name <> JStr (lit "save_workflow_memory") ->
  tool_name <> JStr (lit "check_continuity_status") ->
  let served := mcp_endpoint rt env (Returned (JObj data)) st in
  let message := lit "Unknown tool: " ++ py_str rt tool_name in
  let response :=
    {| content_of :=
         JObj [ (lit "jsonrpc", JStr (lit "2.0"));
                (lit "id", id_of data);
                (lit "error",
                 JObj [ (lit "code", JInt (-32603));
                        (lit "message", JStr message) ]) ];
       status_code := 500 |} in
  fst served = st /\
  (renderable (content_of response) = true -> snd served = Returned response) /\
  occurs_in (py_str rt tool_name) message.
Proof.
  intros Hcall H1 H2 H3. cbv zeta.
  rewrite (mcp_endpoint_tools_call rt env data _ _ st Hcall).
  rewrite execute_tool_unknown by assumption. cbn [fst snd].
  split; [reflexivity|]. split.
  - intros Hrender.
    exact (answer_error_renderable rt (id_of data)
             (ValueError (lit "Unknown tool: " ++ py_str rt tool_name)) Hrender).
  - exists (lit "Unknown tool: "), []. rewrite app_nil_r. reflexivity.
Qed.

Lemma unknown_tool_internal_error_witness :
  let data := Sample.call (JInt 3) "delete_everything" [] in
  let response :=
    internal_error Sample.runtime (JInt 3)
      (ValueError (lit "Unknown tool: delete_everything")) in
  tools_call data (JStr (lit "delete_everything")) (JObj []) /\
  renderable (content_of response) = true /\
  snd (mcp_endpoint Sample.runtime Sample.env (Returned (JObj data)) initial_state)
  = Returned response.
Proof.
  cbv zeta. split; [apply sample_call_tools_call|]. split; [reflexivity|].
  exact (proj1 (proj2
           (unknown_tool_internal_error Sample.runtime Sample.env
              (Sample.call (JInt 3) "delete_everything" [])
              (JStr (lit "delete_everything")) (JObj []) initial_state
              (sample_call_tools_call _ _ _)
              ltac:(discriminate) ltac:(discriminate) ltac:(discriminate)))
           eq_refl).
Defined.

(** ** [check_continuity_status] *)

Lemma status_summary_is_not_verbose (n m : nat) :
  status_summary (str_of_nat n) (str_of_nat m)
  <> status_verbose (str_of_nat n) (str_of_nat m).
Proof.
  intros H. apply (status_summary_no_metrics n m).
  rewrite H. apply status_verbose_has_metrics.
Qed.



(** C9: [detailed] is tested for its truth value.  When the arguments
    bind [detailed] to a value that counts as false (among them [None],
    [0], the empty string, the empty list and the empty dict, none of which
    is [False]), the result is the summary and not the verbose report,
    though the tool descriptor declares [True] as the default. *)
Theorem detailed_is_tested_for_truth rt env args v st :
  dict_lookup args (lit "detailed") = Some v ->
  truthy v = false ->
  let sessions := str_of_nat (size (workflow_sessions st)) in
  let memories := str_of_nat (length (workflow_memory st)) in
  execute_tool rt env (JStr (lit "check_continuity_status")) (JObj args) st =
  (st, Returned (text_result (status_summary sessions memories))) /\
  status_summary sessions memories <> status_verbose sessions memories /\
  Forall (fun falsy => truthy falsy = false /\ falsy <> JBool false)
         [ JNull; JInt 0; JStr []; JArr []; JObj [] ] /\
  declared_default (nth 2 TOOLS JNull) (lit "detailed") = Some (JBool true).
Proof.
  intros Hd Hv. cbv zeta. split.
  - rewrite execute_tool_check. cbv zeta.
    unfold dict_get. rewrite Hd, Hv. reflexivity.
  - split; [apply status_summary_is_not_verbose|].
    split; [|reflexivity].
    repeat constructor; discriminate.
Qed.

Lemma detailed_is_tested_for_truth_witness :
  let args := [ (lit "detailed", JNull) ] in
  dict_lookup args (lit "detailed") = Some JNull /\
  truthy JNull = false /\
  execute_tool Sample.runtime Sample.env (JStr (lit "check_continuity_status"))
    (JObj args) initial_state
  = (initial_state, Returned (text_result (status_summary (lit "0") (lit "0")))).
Proof.
  cbv zeta.
  split; [reflexivity|]. split; [reflexivity|].
  exact (proj1 (detailed_is_tested_for_truth Sample.runtime Sample.env
                  [ (lit "detailed", JNull) ] JNull initial_state eq_refl eq_refl)).
Defined.

(** ** The life of a session *)

Section Lifecycle.
Context (rt : Runtime).

(** What a tool call does to the session collection: nothing, or the one
    assignment of line 166, which stores an active session. *)
Lemma execute_tool_sessions env tool_name arguments st :
  let st' := fst (execute_tool rt env tool_name arguments st) in
  workflow_sessions st' = workflow_sessions st \/
  exists session,
    status session = lit "active" /\
    workflow_sessions st' = <[take 8 (uuid4_str env) := session]> (workflow_sessions st).
Proof.
  cbv zeta. unfold execute_tool.
  destruct (py_eq_str tool_name (lit "create_workflow_session")).
  { destruct arguments; try (left; reflexivity).
    right. eexists. split; [|reflexivity]. reflexivity. }
  left.
  destruct (py_eq_str tool_name (lit "save_workflow_memory")).
  { destruct arguments; try reflexivity.
    unfold bind. simpl.
    destruct (dict_get d (lit "content") JNull); simpl; try reflexivity;
      destruct (dict_get d (lit "importance") (JStr (lit "medium"))); reflexivity. }
  destruct (py_eq_str tool_name (lit "check_continuity_status"));
    [destruct arguments|]; reflexivity.
Qed.


(** The collections a posted object leaves are those it found, or those a
    tool call left. *)
Lemma mcp_endpoint_state env data st :
  fst (mcp_endpoint rt env (Returned (JObj data)) st) = st \/
  exists tool_name arguments,
    tools_call data tool_name arguments /\
    fst (mcp_endpoint rt env (Returned (JObj data)) st)
    = fst (execute_tool rt env tool_name arguments st).
Proof.
  unfold mcp_endpoint.
  destruct (py_eq_str _ (lit "initialize")); [left; reflexivity|].
  destruct (py_eq_str _ (lit "tools/list")); [left; reflexivity|].
  destruct (py_eq_str (dict_get data (lit "method") JNull) (lit "tools/call")) eqn:Ecall;
    [|left; reflexivity].
  apply py_eq_str_true in Ecall.
  destruct (dict_get data (lit "params") (JObj [])) as [ | | | | | | params] eqn:Eparams;
    try (left; reflexivity).
  right.
  exists (dict_get params (lit "name") JNull),
         (dict_get params (lit "arguments") (JObj [])).
  split.
  - split.
    + revert Ecall. unfold dict_get.
      destruct (dict_lookup data (lit "method")); [intros ->; reflexivity | discriminate].
    + exists params. auto.
  - unfold bind. simpl.
    destruct (execute_tool rt env _ _ st) as [st' [result | e]]; reflexivity.
Qed.

Lemma serve_state env op st :
  fst (serve rt env op st) = st \/
  exists data tool_name arguments,
    op = POST_mcp (Returned (JObj data)) /\
    tools_call data tool_name arguments /\
    fst (serve rt env op st) = fst (execute_tool rt env tool_name arguments st).
Proof.
  destruct op as [ | | | body]; try (left; reflexivity).
  destruct body as [data | e]; [|left; reflexivity].
  destruct data as [ | | | | | | data]; try (left; reflexivity).
  cbn [serve].
  destruct (mcp_endpoint_state env data st) as [E | (tool_name & arguments & Hcall & E)].
  - left. exact E.
  - right. exists data, tool_name, arguments. auto.
Qed.

Lemma serve_sessions env op st :
  let st' := fst (serve rt env op st) in
  workflow_sessions st' = workflow_sessions st \/
  exists session,
    status session = lit "active" /\
    workflow_sessions st' = <[take 8 (uuid4_str env) := session]> (workflow_sessions st).
Proof.
  cbv zeta.
  destruct (serve_state env op st) as [-> | (data & tool_name & arguments & _ & _ & ->)].
  - left. reflexivity.
  - apply execute_tool_sessions.
Qed.





End Lifecycle.




(** * Further properties of the handlers *)

(** ** Bodies that are not well-formed requests *)

(** X1: A body that cannot be parsed, or that parses to anything but an
    object, is answered with the internal-error envelope and a null [id]
    (the message of the failure being encodable, as the runtime's messages
    are); the collections are left as they were. *)
Theorem non_object_body_internal_error rt env body st :
  (forall data, body <> Returned (JObj data)) ->
  let e := match body with
           | Raised e => e
           | Returned data => AttributeError data (lit "get")
           end in
  encodable (exn_str rt e) = true ->
  mcp_endpoint rt env body st =
  (st,
   Returned
     {| content_of :=
          JObj [ (lit "jsonrpc", JStr (lit "2.0"));
                 (lit "id", JNull);
                 (lit "error",
                  JObj [ (lit "code", JInt (-32603));
                         (lit "message", JStr (exn_str rt e)) ]) ];
        status_code := 500 |}).
Proof.
  intros Hbody. cbv zeta. intros Hmessage.
  assert (Hanswer : forall e, encodable (exn_str rt e) = true ->
                              answer_error rt JNull e = Returned (internal_error rt JNull e)).
  { intros e He. apply answer_error_renderable.
    rewrite internal_error_renderable, He. reflexivity. }
  destruct body as [data | e]; [|cbn [mcp_endpoint]; rewrite Hanswer by exact Hmessage;
                                 reflexivity].
  destruct data; cbn [mcp_endpoint]; try (rewrite Hanswer by exact Hmessage; reflexivity).
  exfalso. exact (Hbody d eq_refl).
Qed.

Lemma non_object_body_internal_error_witness :
  let body := Returned (JArr [ JInt 1; JInt 2 ]) in
  (forall data, body <> Returned (JObj data)) /\
  encodable (exn_str Sample.runtime (AttributeError (JArr [ JInt 1; JInt 2 ]) (lit "get")))
  = true /\
  mcp_endpoint Sample.runtime Sample.env body initial_state =
  (initial_state,
   Returned (internal_error Sample.runtime JNull
               (AttributeError (JArr [ JInt 1; JInt 2 ]) (lit "get")))).
Proof.
  cbv zeta. split; [intros data H; discriminate H|]. split; [reflexivity|].
  exact (non_object_body_internal_error Sample.runtime Sample.env
           (Returned (JArr [ JInt 1; JInt 2 ])) initial_state
           (fun data H => ltac:(discriminate H)) eq_refl).
Defined.

(** X2: A [tools/call] whose [params] is present and not an object fails on
    [params.get] and changes nothing; when the error envelope can be
    rendered it is the answer, with the [id] echoed and HTTP status 500. *)
Theorem params_not_an_object rt env data params st :
  dict_lookup data (lit "method") = Some (JStr (lit "tools/call")) ->
  dict_lookup data (lit "params") = Some params ->
  (forall d, params <> JObj d) ->
  let served := mcp_endpoint rt env (Returned (JObj data)) st in
  let response :=
    {| content_of :=
         JObj [ (lit "jsonrpc", JStr (lit "2.0"));
                (lit "id", id_of data);
                (lit "error",
                 JObj [ (lit "code", JInt (-32603));
                        (lit "message",
                         JStr (exn_text rt (AttributeError params (lit "get")))) ]) ];
       status_code := 500 |} in
  fst served = st /\
  (renderable (content_of response) = true -> snd served = Returned response).
Proof.
  intros Hm Hp Hnot. cbv zeta.
  assert (Hm' : dict_get data (lit "method") JNull = JStr (lit "tools/call"))
    by (unfold dict_get; rewrite Hm; reflexivity).
  assert (Hp' : dict_get data (lit "params") (JObj []) = params)
    by (unfold dict_get; rewrite Hp; reflexivity).
  unfold mcp_endpoint. rewrite Hm', Hp'. simpl.
  destruct params as [ | | | | | | d];
    try (split; [reflexivity|]; intros Hrender;
         exact (answer_error_renderable rt (id_of data) (AttributeError _ (lit "get"))
                  Hrender)).
  exfalso. exact (Hnot d eq_refl).
Qed.

Lemma params_not_an_object_witness :
  let data := [ (lit "id", JStr (lit "q7"));
                (lit "method", JStr (lit "tools/call"));
                (lit "params", JNull) ] in
  let response :=
    internal_error Sample.runtime (JStr (lit "q7")) (AttributeError JNull (lit "get")) in
  dict_lookup data (lit "method") = Some (JStr (lit "tools/call")) /\
  dict_lookup data (lit "params") = Some JNull /\
  (forall d, JNull <> JObj d) /\
  renderable (content_of response) = true /\
  snd (mcp_endpoint Sample.runtime Sample.env (Returned (JObj data)) initial_state)
  = Returned response.
Proof.
  cbv zeta. split; [reflexivity|]. split; [reflexivity|].
  split; [intros d H; discriminate H|]. split; [reflexivity|].
  exact (proj2 (params_not_an_object Sample.runtime Sample.env
                  [ (lit "id", JStr (lit "q7"));
                    (lit "method", JStr (lit "tools/call"));
                    (lit "params", JNull) ] JNull initial_state eq_refl eq_refl
                  (fun d H => ltac:(discriminate H))) eq_refl).
Defined.

(** X3: One of the three tools called with [arguments] that is not an
    object fails on [arguments.get] before anything is stored. *)
Theorem arguments_not_an_object rt env tool_name arguments st :
  In tool_name advertised_names ->
  (forall d, arguments <> JObj d) ->
  execute_tool rt env tool_name arguments st
  = (st, Raised (AttributeError arguments (lit "get"))).
Proof.
  intros Hname Hnot.
  destruct Hname as [<- | [<- | [<- | []]]];
    (destruct arguments; try reflexivity; exfalso; exact (Hnot d eq_refl)).
Qed.

Lemma arguments_not_an_object_witness :
  In (JStr (lit "save_workflow_memory")) advertised_names /\
  (forall d, JArr [ JStr (lit "note") ] <> JObj d) /\
  execute_tool Sample.runtime Sample.env (JStr (lit "save_workflow_memory"))
    (JArr [ JStr (lit "note") ]) initial_state
  = (initial_state, Raised (AttributeError (JArr [ JStr (lit "note") ]) (lit "get"))).
Proof.
  split; [right; left; reflexivity|].
  split; [intros d H; discriminate H|].
  exact (arguments_not_an_object Sample.runtime Sample.env
           (JStr (lit "save_workflow_memory")) (JArr [ JStr (lit "note") ])
           initial_state
           (or_intror (or_introl eq_refl)) (fun d H => ltac:(discriminate H))).
Defined.

(** X4: A body without a [method] field is treated like an unknown method
    and changes nothing; when the envelope can be rendered the answer has
    code -32601, HTTP status 200, and a message naming the method
    [None]. *)
Theorem missing_method_not_found rt env data st :
  dict_lookup data (lit "method") = None ->
  let served := mcp_endpoint rt env (Returned (JObj data)) st in
  let response :=
    {| content_of :=
         JObj [ (lit "jsonrpc", jsonrpc_of data);
                (lit "id", id_of data);
                (lit "error",
                 JObj [ (lit "code", JInt (-32601));
                        (lit "message", JStr (lit "Method not found: None")) ]) ];
       status_code := 200 |} in
  fst served = st /\
  (renderable (content_of response) = true -> snd served = Returned response).
Proof.
  intros Hm. cbv zeta.
  assert (Hm' : dict_get data (lit "method") JNull = JNull)
    by (unfold dict_get; rewrite Hm; reflexivity).
  unfold mcp_endpoint. rewrite Hm'. cbn [py_eq_str fst snd].
  split; [reflexivity|]. intros Hrender.
  exact (answer_renderable rt (id_of data)
           (method_not_found rt (jsonrpc_of data) (id_of data) JNull) Hrender).
Qed.

Lemma missing_method_not_found_witness :
  let data := [ (lit "jsonrpc", JStr (lit "2.0")); (lit "id", JInt 12) ] in
  let response := method_not_found Sample.runtime (JStr (lit "2.0")) (JInt 12) JNull in
  dict_lookup data (lit "method") = None /\
  renderable (content_of response) = true /\
  snd (mcp_endpoint Sample.runtime Sample.env (Returned (JObj data)) initial_state)
  = Returned response.
Proof.
  cbv zeta. split; [reflexivity|]. split; [reflexivity|].
  exact (proj2 (missing_method_not_found Sample.runtime Sample.env
                  [ (lit "jsonrpc", JStr (lit "2.0")); (lit "id", JInt 12) ]
                  initial_state eq_refl) eq_refl).
Defined.

(** ** The shape of every answer *)

Lemma answer_error_shape rt request_id e :
  match answer_error rt request_id e with
  | Returned response =>
      renderable (content_of response) = true /\
      envelope_field response (lit "id") = Some request_id /\
      answered_500 response
  | Raised e' =>
      exists cause,
        e' = RenderError (content_of (internal_error rt request_id cause))
  end.
Proof.
  unfold answer_error, construct.
  destruct (renderable (content_of (internal_error rt request_id e))) eqn:E.
  - split; [exact E|]. split; [reflexivity|].
    repeat split. eexists. reflexivity.
  - exists e. reflexivity.
Qed.

Lemma answer_shape rt jsonrpc request_id response :
  envelope_field response (lit "id") = Some request_id ->
  answered_200 jsonrpc response ->
  match answer rt request_id response with
  | Returned sent =>
      renderable (content_of sent) = true /\
      envelope_field sent (lit "id") = Some request_id /\
      (answered_200 jsonrpc sent \/ answered_500 sent)
  | Raised e' =>
      exists cause,
        e' = RenderError (content_of (internal_error rt request_id cause))
  end.
Proof.
  intros Hid Hshape. unfold answer, construct.
  destruct (renderable (content_of response)) eqn:E.
  - auto.
  - pose proof (answer_error_shape rt request_id (RenderError (content_of response))) as H.
    destruct (answer_error rt request_id (RenderError (content_of response)));
      [|exact H].
    destruct H as (H1 & H2 & H3). auto.
Qed.

Lemma mcp_endpoint_outcome rt env data st :
  match snd (mcp_endpoint rt env (Returned (JObj data)) st) with
  | Returned response =>
      renderable (content_of response) = true /\
      envelope_field response (lit "id") = Some (id_of data) /\
      (answered_200 (jsonrpc_of data) response \/ answered_500 response)
  | Raised e =>
      exists cause,
        e = RenderError (content_of (internal_error rt (id_of data) cause))
  end.
Proof.
  assert (Hsuccess : forall result,
             answered_200 (jsonrpc_of data)
               (success_response (jsonrpc_of data) (id_of data) result)).
  { intros result. repeat split. left. split; [eexists|]; reflexivity. }
  assert (Herror : forall e,
             match answer_error rt (id_of data) e with
             | Returned response =>
                 renderable (content_of response) = true /\
                 envelope_field response (lit "id") = Some (id_of data) /\
                 (answered_200 (jsonrpc_of data) response \/ answered_500 response)
             | Raised e' =>
                 exists cause,
                   e' = RenderError (content_of (internal_error rt (id_of data) cause))
             end).
  { intros e. pose proof (answer_error_shape rt (id_of data) e) as H.
    destruct (answer_error rt (id_of data) e); [|exact H].
    destruct H as (H1 & H2 & H3). auto. }
  unfold mcp_endpoint.
  fold (jsonrpc_of data). fold (id_of data).
  destruct (py_eq_str _ (lit "initialize")).
  { cbn [snd]. apply answer_shape; [reflexivity | apply Hsuccess]. }
  destruct (py_eq_str _ (lit "tools/list")).
  { cbn [snd]. apply answer_shape; [reflexivity | apply Hsuccess]. }
  destruct (py_eq_str _ (lit "tools/call")).
  - destruct (bind _ _ st) as [st' [result | e]]; cbn [snd].
    + apply answer_shape; [reflexivity | apply Hsuccess].
    + apply Herror.
  - cbn [snd]. apply answer_shape; [reflexivity|].
    repeat split. right. split; [reflexivity|]. eexists. reflexivity.
Qed.

(** X5: Whatever object is posted, either a response is sent or an
    exception leaves the handler.  A response sent can be rendered, echoes
    the [id], and is of one of two kinds: HTTP 200 with the request's
    [jsonrpc] and a [result] or the error -32601, or HTTP 500 with
    [jsonrpc] fixed to 2.0 and the error -32603.  The only exception that
    leaves the handler is the failure to render the error envelope of the
    [except] clause. *)
Theorem mcp_endpoint_envelope rt env data st :
  match snd (mcp_endpoint rt env (Returned (JObj data)) st) with
  | Returned response =>
      renderable (content_of response) = true /\
      envelope_field response (lit "id") = Some (id_of data) /\
      (answered_200 (jsonrpc_of data) response \/ answered_500 response)
  | Raised e =>
      exists cause,
        e = RenderError (content_of (internal_error rt (id_of data) cause))
  end.
Proof. apply mcp_endpoint_outcome. Qed.

(** X20: When the [id] of a posted object cannot be rendered (it holds a
    NaN, an infinity or a lone surrogate), no envelope can carry it: an
    exception leaves the handler, whatever the method. *)
Theorem unrenderable_id_escapes rt env data st :
  renderable (id_of data) = false ->
  exists cause,
    snd (mcp_endpoint rt env (Returned (JObj data)) st)
    = Raised (RenderError (content_of (internal_error rt (id_of data) cause))).
Proof.
  intros Hid.
  pose proof (mcp_endpoint_outcome rt env data st) as H.
  destruct (snd (mcp_endpoint rt env (Returned (JObj data)) st))
    as [response | e].
  - exfalso. destruct H as (Hrender & Hecho & _).
    unfold envelope_field in Hecho.
    destruct (content_of response) as [ | | | | | | d]; try discriminate Hecho.
    cbn [renderable] in Hrender.
    revert Hrender Hecho. generalize (lit "id") as key. intros key.
    induction d as [ | [k v] d IH]; simpl; [intros _ H; discriminate H|].
    case_bool_decide.
    + intros Hrender [= ->]. rewrite Hid in Hrender.
      rewrite andb_false_r in Hrender. discriminate Hrender.
    + intros Hrender Hecho. apply andb_prop in Hrender as [_ Hrender]. auto.
  - destruct H as [cause ->]. exists cause. reflexivity.
Qed.

Lemma unrenderable_id_escapes_witness :
  let data := Sample.call (JFloat (S754_infinity false)) "check_continuity_status" [] in
  renderable (id_of data) = false /\
  exists cause,
    snd (mcp_endpoint Sample.runtime Sample.env (Returned (JObj data)) initial_state)
    = Raised (RenderError (content_of (internal_error Sample.runtime (id_of data) cause))).
Proof.
  cbv zeta. split; [reflexivity|].
  exact (unrenderable_id_escapes Sample.runtime Sample.env
           (Sample.call (JFloat (S754_infinity false)) "check_continuity_status" [])
           initial_state eq_refl).
Defined.

(** ** Which calls reach a tool *)

(** X6: The dispatcher and the advertised list agree: [execute_tool] raises
    its unknown-tool error for a name exactly when [TOOLS] does not
    advertise that name. *)
Theorem unknown_tool_iff_not_advertised rt env tool_name arguments st :
  snd (execute_tool rt env tool_name arguments st)
  = Raised (ValueError (lit "Unknown tool: " ++ py_str rt tool_name))
  <-> ~ In tool_name advertised_names.
Proof.
  split.
  - intros Hraise Hin.
    destruct Hin as [<- | [<- | [<- | []]]].
    + destruct arguments; discriminate Hraise.
    + destruct arguments; try discriminate Hraise.
      revert Hraise. unfold execute_tool, bind. simpl.
      destruct (dict_get d (lit "content") JNull); simpl; try discriminate;
        destruct (dict_get d (lit "importance") (JStr (lit "medium"))); simpl;
        discriminate.
    + destruct arguments; discriminate Hraise.
  - intros Hnot. rewrite execute_tool_unknown; [reflexivity | | |];
      intros ->; apply Hnot; simpl; auto.
Qed.

Lemma unknown_tool_iff_not_advertised_witness :
  ~ In (JStr (lit "Save_Workflow_Memory")) advertised_names /\
  snd (execute_tool Sample.runtime Sample.env (JStr (lit "Save_Workflow_Memory"))
         (JObj [ (lit "content", JStr (lit "x")) ]) initial_state)
  = Raised (ValueError (lit "Unknown tool: Save_Workflow_Memory")).
Proof.
  assert (Hnot : ~ In (JStr (lit "Save_Workflow_Memory")) advertised_names)
    by (intros [H | [H | [H | []]]]; discriminate H).
  split; [exact Hnot|].
  exact (proj2 (unknown_tool_iff_not_advertised Sample.runtime Sample.env
                  (JStr (lit "Save_Workflow_Memory"))
                  (JObj [ (lit "content", JStr (lit "x")) ]) initial_state) Hnot).
Defined.

Lemma execute_tool_changes rt env tool_name arguments st :
  fst (execute_tool rt env tool_name arguments st) <> st ->
  exists args,
    arguments = JObj args /\
    (tool_name = JStr (lit "create_workflow_session") \/
     tool_name = JStr (lit "save_workflow_memory")).
Proof.
  intros Hchange. unfold execute_tool in Hchange.
  destruct (py_eq_str tool_name (lit "create_workflow_session")) eqn:E1.
  { apply py_eq_str_true in E1.
    destruct arguments as [ | | | | | | args];
      try (exfalso; apply Hchange; reflexivity).
    exists args. auto. }
  destruct (py_eq_str tool_name (lit "save_workflow_memory")) eqn:E2.
  { apply py_eq_str_true in E2.
    destruct arguments as [ | | | | | | args];
      try (exfalso; apply Hchange; reflexivity).
    exists args. auto. }
  exfalso. apply Hchange.
  destruct (py_eq_str tool_name (lit "check_continuity_status"));
    [destruct arguments|]; reflexivity.
Qed.

(** X7: Only two operations can change the collections: a request that leaves
    them different is a [tools/call] of [create_workflow_session] or of
    [save_workflow_memory] with an arguments object. *)
Theorem only_create_and_save_mutate rt env op st :
  fst (serve rt env op st) <> st ->
  exists data tool_name args,
    op = POST_mcp (Returned (JObj data)) /\
    tools_call data tool_name (JObj args) /\
    (tool_name = JStr (lit "create_workflow_session") \/
     tool_name = JStr (lit "save_workflow_memory")).
Proof.
  intros Hchange.
  destruct (serve_state rt env op st)
    as [E | (data & tool_name & arguments & Hop & Hcall & E)];
    [contradiction|].
  rewrite E in Hchange.
  destruct (execute_tool_changes rt env tool_name arguments st Hchange)
    as (args & -> & Hname).
  exists data, tool_name, args. auto.
Qed.

Lemma only_create_and_save_mutate_witness :
  let op := POST_mcp (Returned (JObj (Sample.call (JInt 13) "save_workflow_memory"
                                        [ (lit "content", JStr (lit "kept")) ]))) in
  fst (serve Sample.runtime Sample.env op initial_state) <> initial_state /\
  exists data tool_name args,
    op = POST_mcp (Returned (JObj data)) /\
    tools_call data tool_name (JObj args) /\
    (tool_name = JStr (lit "create_workflow_session") \/
     tool_name = JStr (lit "save_workflow_memory")).
Proof.
  cbv zeta.
  assert (Hchange :
            fst (serve Sample.runtime Sample.env
                   (POST_mcp (Returned (JObj (Sample.call (JInt 13) "save_workflow_memory"
                                                [ (lit "content", JStr (lit "kept")) ]))))
                   initial_state) <> initial_state)
    by (intros H; apply (f_equal workflow_memory) in H; discriminate H).
  split; [exact Hchange|].
  exact (only_create_and_save_mutate Sample.runtime Sample.env _ initial_state Hchange).
Defined.

(** ** What a failed call leaves behind *)

(** X8: A tool call that raises leaves the session collection as it was;
    the memory list is as it was or holds the one item appended at lines
    194-199 before the failure. *)
Theorem execute_tool_raised_effect rt env tool_name arguments st st' e :
  execute_tool rt env tool_name arguments st = (st', Raised e) ->
  workflow_sessions st' = workflow_sessions st /\
  (workflow_memory st' = workflow_memory st \/
   exists item, workflow_memory st' = workflow_memory st ++ [item]).
Proof.
  unfold execute_tool.
  destruct (py_eq_str tool_name (lit "create_workflow_session")).
  { destruct arguments; intros [= <- _]; auto. }
  destruct (py_eq_str tool_name (lit "save_workflow_memory")).
  { destruct arguments; try (intros [= <- _]; auto).
    unfold bind. simpl.
    destruct (dict_get d (lit "content") JNull); simpl;
      try (intros [= <- _]; simpl; eauto);
      destruct (dict_get d (lit "importance") (JStr (lit "medium"))); simpl;
      intros [= <- ?]; simpl; eauto. }
  destruct (py_eq_str tool_name (lit "check_continuity_status")).
  { destruct arguments; intros [= <- _]; auto. }
  intros [= <- _]. auto.
Qed.

Lemma execute_tool_raised_effect_witness :
  let args := [ (lit "content", JStr (lit "note")); (lit "importance", JInt 3) ] in
  let item := {| id := lit "3f2a9c1e";
                 content := JStr (lit "note");
                 importance := JInt 3;
                 saved_at := now_isoformat Sample.env |} in
  let st' := {| workflow_sessions := ∅; workflow_memory := [ item ] |} in
  execute_tool Sample.runtime Sample.env (JStr (lit "save_workflow_memory"))
    (JObj args) initial_state
  = (st', Raised (AttributeError (JInt 3) (lit "title"))) /\
  workflow_sessions st' = workflow_sessions initial_state /\
  (workflow_memory st' = workflow_memory initial_state \/
   exists item', workflow_memory st' = workflow_memory initial_state ++ [item']).
Proof.
  cbv zeta. split; [reflexivity|].
  exact (execute_tool_raised_effect Sample.runtime Sample.env
           (JStr (lit "save_workflow_memory"))
           (JObj [ (lit "content", JStr (lit "note")); (lit "importance", JInt 3) ])
           initial_state _ _ eq_refl).
Defined.

(** X21: What a tool stored stays stored when its confirmation cannot be
    rendered: the tool returned, the success envelope raised inside the
    [try], and the answer is the internal error with HTTP status 500 (the
    [id] and the failure's message being renderable). *)
Theorem unrenderable_result_answered_with_error
    rt env data tool_name arguments st st' result :
  tools_call data tool_name arguments ->
  execute_tool rt env tool_name arguments st = (st', Returned result) ->
  let success := success_response (jsonrpc_of data) (id_of data) result in
  renderable (content_of success) = false ->
  renderable (id_of data) = true ->
  encodable (exn_text rt (RenderError (content_of success))) = true ->
  mcp_endpoint rt env (Returned (JObj data)) st =
  (st',
   Returned
     {| content_of :=
          JObj [ (lit "jsonrpc", JStr (lit "2.0"));
                 (lit "id", id_of data);
                 (lit "error",
                  JObj [ (lit "code", JInt (-32603));
                         (lit "message",
                          JStr (exn_text rt (RenderError (content_of success)))) ]) ];
        status_code := 500 |}).
Proof.
  intros Hcall Hrun. cbv zeta. intros Hfail Hid Hmessage.
  rewrite (mcp_endpoint_tools_call rt env data _ _ st Hcall), Hrun.
  unfold answer. rewrite construct_unrenderable by exact Hfail.
  rewrite answer_error_renderable; [reflexivity|].
  rewrite internal_error_renderable, Hid. exact Hmessage.
Qed.

Lemma unrenderable_result_answered_with_error_witness :
  let args := [ (lit "session_name", JStr [ 0xD800%N ]) ] in
  let data := Sample.call (JInt 22) "create_workflow_session" args in
  let served :=
    mcp_endpoint Sample.runtime Sample.env (Returned (JObj data)) initial_state in
  tools_call data (JStr (lit "create_workflow_session")) (JObj args) /\
  size (workflow_sessions (fst served)) = 1%nat /\
  exists message,
    snd served =
    Returned
      {| content_of :=
           JObj [ (lit "jsonrpc", JStr (lit "2.0"));
                  (lit "id", JInt 22);
                  (lit "error",
                   JObj [ (lit "code", JInt (-32603));
                          (lit "message", JStr message) ]) ];
         status_code := 500 |}.
Proof.
  cbv zeta. split; [apply sample_call_tools_call|].
  rewrite (unrenderable_result_answered_with_error Sample.runtime Sample.env
             (Sample.call (JInt 22) "create_workflow_session"
                [ (lit "session_name", JStr [ 0xD800%N ]) ])
             (JStr (lit "create_workflow_session"))
             (JObj [ (lit "session_name", JStr [ 0xD800%N ]) ])
             initial_state _ _
             (sample_call_tools_call _ _ _) eq_refl eq_refl eq_refl eq_refl).
  split; [vm_compute; reflexivity|]. eexists. reflexivity.
Defined.

(** ** The collections over a run *)

Lemma execute_tool_memory rt env tool_name arguments st :
  let st' := fst (execute_tool rt env tool_name arguments st) in
  workflow_memory st' = workflow_memory st \/
  exists item, workflow_memory st' = workflow_memory st ++ [item].
Proof.
  cbv zeta. unfold execute_tool.
  destruct (py_eq_str tool_name (lit "create_workflow_session")).
  { destruct arguments; left; reflexivity. }
  destruct (py_eq_str tool_name (lit "save_workflow_memory")).
  { destruct arguments; try (left; reflexivity).
    right. unfold bind. simpl.
    destruct (dict_get d (lit "content") JNull); simpl; eauto;
      destruct (dict_get d (lit "importance") (JStr (lit "medium"))); simpl; eauto. }
  left. destruct (py_eq_str tool_name (lit "check_continuity_status"));
    [destruct arguments|]; reflexivity.
Qed.

Lemma serve_memory rt env op st :
  let st' := fst (serve rt env op st) in
  workflow_memory st' = workflow_memory st \/
  exists item, workflow_memory st' = workflow_memory st ++ [item].
Proof.
  cbv zeta.
  destruct (serve_state rt env op st)
    as [-> | (data & tool_name & arguments & _ & _ & ->)].
  - left. reflexivity.
  - apply execute_tool_memory.
Qed.

(** X9: The memory list is append-only: over any sequence of requests the
    list it started with remains a prefix of the list, and each request
    adds at most one item. *)
Theorem memory_is_append_only rt trace st :
  workflow_memory st `prefix_of` workflow_memory (run rt trace st) /\
  (length (workflow_memory (run rt trace st))
   <= length (workflow_memory st) + length trace)%nat.
Proof.
  revert st. induction trace as [ | [env op] trace IH]; intros st; cbn [run].
  - split; [reflexivity | simpl; lia].
  - destruct (IH (fst (serve rt env op st))) as [Hpre Hlen].
    destruct (serve_memory rt env op st) as [E | [item E]];
      rewrite E in Hpre, Hlen.
    + split; [exact Hpre | simpl; lia].
    + split.
      * eapply prefix_app_l. exact Hpre.
      * rewrite length_app in Hlen. simpl in *. lia.
Qed.

(** X10: Session identifiers are never dropped: over any sequence of requests
    every key of the session collection stays a key, and each request adds
    at most one. *)
Theorem session_keys_persist rt trace st :
  (forall k, is_Some (workflow_sessions st !! k) ->
             is_Some (workflow_sessions (run rt trace st) !! k)) /\
  (size (workflow_sessions st) <= size (workflow_sessions (run rt trace st))
   <= size (workflow_sessions st) + length trace)%nat.
Proof.
  revert st. induction trace as [ | [env op] trace IH]; intros st; cbn [run].
  - split; [auto | simpl; lia].
  - destruct (IH (fst (serve rt env op st))) as [Hkeys Hsize].
    destruct (serve_sessions rt env op st) as [E | (session & _ & E)];
      rewrite E in Hkeys, Hsize.
    + split; [exact Hkeys | simpl; lia].
    + split.
      * intros k Hk. apply Hkeys. rewrite lookup_insert.
        case_decide; [eauto | exact Hk].
      * rewrite map_size_insert in Hsize.
        match type of Hsize with
        | context [match ?stored with _ => _ end] => destruct stored
        end; simpl in *; lia.
Qed.

Lemma session_keys_persist_witness :
  let create :=
    POST_mcp (Returned (JObj (Sample.call (JInt 2) "create_workflow_session"
                                [ (lit "session_name", JStr (lit "release plan")) ]))) in
  let st := fst (serve Sample.runtime Sample.env create initial_state) in
  let trace := [ (Sample.env, create); (Sample.env, GET_root) ] in
  is_Some (workflow_sessions st !! lit "3f2a9c1e") /\
  is_Some (workflow_sessions (run Sample.runtime trace st) !! lit "3f2a9c1e").
Proof.
  cbv zeta.
  assert (H : is_Some
                (workflow_sessions
                   (fst (serve Sample.runtime Sample.env
                           (POST_mcp (Returned (JObj
                              (Sample.call (JInt 2) "create_workflow_session"
                                 [ (lit "session_name", JStr (lit "release plan")) ]))))
                           initial_state)) !! lit "3f2a9c1e"))
    by (vm_compute; eauto).
  split; [exact H|].
  exact (proj1 (session_keys_persist Sample.runtime _ _) _ H).
Defined.

(** ** More on [save_workflow_memory] *)



(** X12: A [content] that is neither a string nor a list (absent, null, a
    number, a boolean, an object) makes [content[:150]] fail: the tool
    raises, and the item appended before stays stored. *)
Theorem save_workflow_memory_unsliceable_content rt env args st :
  let content := dict_get args (lit "content") JNull in
  (forall s, content <> JStr s) ->
  (forall l, content <> JArr l) ->
  execute_tool rt env (JStr (lit "save_workflow_memory")) (JObj args) st =
  ({| workflow_sessions := workflow_sessions st;
      workflow_memory :=
        workflow_memory st ++
        [ {| id := take 8 (uuid4_str env);
             content := content;
             importance := dict_get args (lit "importance") (JStr (lit "medium"));
             saved_at := now_isoformat env |} ] |},
   Raised (NotSubscriptable content)).
Proof.
  cbv zeta. intros Hs Hl.
  unfold execute_tool. simpl. unfold bind, ret. simpl.
  destruct (dict_get args (lit "content") JNull) as [ | | | | s | l | ];
    try reflexivity.
  - exfalso. exact (Hs s eq_refl).
  - exfalso. exact (Hl l eq_refl).
Qed.

Lemma save_workflow_memory_unsliceable_content_witness :
  let args := [ (lit "content", JInt 42) ] in
  let called :=
    execute_tool Sample.runtime Sample.env (JStr (lit "save_workflow_memory"))
      (JObj args) initial_state in
  (forall s, dict_get args (lit "content") JNull <> JStr s) /\
  (forall l, dict_get args (lit "content") JNull <> JArr l) /\
  length (workflow_memory (fst called)) = 1%nat /\
  snd called = Raised (NotSubscriptable (JInt 42)).
Proof.
  cbv zeta.
  split; [intros s H; discriminate H|].
  split; [intros l H; discriminate H|].
  rewrite (save_workflow_memory_unsliceable_content Sample.runtime Sample.env
             [ (lit "content", JInt 42) ] initial_state
             (fun s H => ltac:(discriminate H)) (fun l H => ltac:(discriminate H))).
  split; reflexivity.
Defined.

(** X13: An [importance] that is present and not a string makes
    [importance.title()] fail after the item was appended: the tool raises,
    and the item is stored with that importance. *)
Theorem save_workflow_memory_importance_not_a_string rt env args c v st :
  dict_lookup args (lit "content") = Some (JStr c) ->
  dict_lookup args (lit "importance") = Some v ->
  (forall s, v <> JStr s) ->
  execute_tool rt env (JStr (lit "save_workflow_memory")) (JObj args) st =
  ({| workflow_sessions := workflow_sessions st;
      workflow_memory :=
        workflow_memory st ++ [ {| id := take 8 (uuid4_str env);
                                   content := JStr c;
                                   importance := v;
                                   saved_at := now_isoformat env |} ] |},
   Raised (AttributeError v (lit "title"))).
Proof.
  intros Hc Hi Hnot.
  assert (Hc' : dict_get args (lit "content") JNull = JStr c)
    by (unfold dict_get; rewrite Hc; reflexivity).
  assert (Hi' : dict_get args (lit "importance") (JStr (lit "medium")) = v)
    by (unfold dict_get; rewrite Hi; reflexivity).
  unfold execute_tool. simpl. unfold bind, ret. simpl.
  rewrite Hc', Hi'. simpl.
  destruct v as [ | | | | s | | ]; try reflexivity.
  exfalso. exact (Hnot s eq_refl).
Qed.

Lemma save_workflow_memory_importance_not_a_string_witness :
  let args := [ (lit "content", JStr (lit "note")); (lit "importance", JNull) ] in
  dict_lookup args (lit "content") = Some (JStr (lit "note")) /\
  dict_lookup args (lit "importance") = Some JNull /\
  (forall s, JNull <> JStr s) /\
  snd (execute_tool Sample.runtime Sample.env (JStr (lit "save_workflow_memory"))
         (JObj args) initial_state)
  = Raised (AttributeError JNull (lit "title")).
Proof.
  cbv zeta.
  split; [reflexivity|]. split; [reflexivity|].
  split; [intros s H; discriminate H|].
  rewrite (save_workflow_memory_importance_not_a_string Sample.runtime Sample.env
             [ (lit "content", JStr (lit "note")); (lit "importance", JNull) ]
             (lit "note") JNull initial_state eq_refl eq_refl
             (fun s H => ltac:(discriminate H))).
  reflexivity.
Defined.



(** ** More on [check_continuity_status] *)

(** X15: Any [detailed] that counts as true selects the verbose report,
    booleans or not: the string [false] does. *)
Theorem detailed_truthy_gives_verbose rt env args v st :
  dict_lookup args (lit "detailed") = Some v ->
  truthy v = true ->
  execute_tool rt env (JStr (lit "check_continuity_status")) (JObj args) st =
  (st,
   Returned (text_result
               (status_verbose (str_of_nat (size (workflow_sessions st)))
                               (str_of_nat (length (workflow_memory st)))))).
Proof.
  intros Hd Hv. rewrite execute_tool_check. cbv zeta.
  unfold dict_get. rewrite Hd, Hv. reflexivity.
Qed.

Lemma detailed_truthy_gives_verbose_witness :
  let args := [ (lit "detailed", JStr (lit "false")) ] in
  dict_lookup args (lit "detailed") = Some (JStr (lit "false")) /\
  truthy (JStr (lit "false")) = true /\
  execute_tool Sample.runtime Sample.env (JStr (lit "check_continuity_status"))
    (JObj args) initial_state
  = (initial_state, Returned (text_result (status_verbose (lit "0") (lit "0")))).
Proof.
  cbv zeta. split; [reflexivity|]. split; [reflexivity|].
  exact (detailed_truthy_gives_verbose Sample.runtime Sample.env
           [ (lit "detailed", JStr (lit "false")) ] (JStr (lit "false"))
           initial_state eq_refl eq_refl).
Defined.



Lemma status_texts_encodable (n m : nat) :
  encodable (status_summary (str_of_nat n) (str_of_nat m)) = true /\
  encodable (status_verbose (str_of_nat n) (str_of_nat m)) = true.
Proof.
  unfold status_summary, status_verbose.
  rewrite !encodable_app, !str_of_nat_encodable. split; reflexivity.
Qed.

(** X22: A [check_continuity_status] call is answered with its report
    whenever the echoed [jsonrpc] and [id] can be rendered, whatever the
    arguments object holds: the report itself always renders. *)
Theorem check_continuity_status_delivered rt env data args st :
  tools_call data (JStr (lit "check_continuity_status")) (JObj args) ->
  renderable (jsonrpc_of data) = true ->
  renderable (id_of data) = true ->
  let sessions := str_of_nat (size (workflow_sessions st)) in
  let memories := str_of_nat (length (workflow_memory st)) in
  mcp_endpoint rt env (Returned (JObj data)) st =
  (st,
   Returned
     {| content_of :=
          JObj [ (lit "jsonrpc", jsonrpc_of data);
                 (lit "id", id_of data);
                 (lit "result",
                  text_result
                    (if truthy (dict_get args (lit "detailed") (JBool true))
                     then status_verbose sessions memories
                     else status_summary sessions memories)) ];
        status_code := 200 |}).
Proof.
  intros Hcall Hjsonrpc Hid. cbv zeta.
  apply (mcp_endpoint_delivers rt env data _ _ st st _ Hcall).
  - apply execute_tool_check.
  - rewrite success_response_renderable, Hjsonrpc, Hid, text_result_renderable.
    destruct (status_texts_encodable (size (workflow_sessions st))
                (length (workflow_memory st))) as [Hsummary Hverbose].
    destruct (truthy _); assumption.
Qed.

Lemma check_continuity_status_delivered_witness :
  let args := [ (lit "detailed", JStr [ 0xD800%N ]) ] in
  let data := Sample.call (JInt 23) "check_continuity_status" args in
  tools_call data (JStr (lit "check_continuity_status")) (JObj args) /\
  renderable (jsonrpc_of data) = true /\
  renderable (id_of data) = true /\
  snd (mcp_endpoint Sample.runtime Sample.env (Returned (JObj data)) initial_state)
  = Returned (success_response (JStr (lit "2.0")) (JInt 23)
                (text_result (status_verbose (lit "0") (lit "0")))).
Proof.
  cbv zeta.
  split; [apply sample_call_tools_call|]. split; [reflexivity|].
  split; [reflexivity|].
  rewrite (check_continuity_status_delivered Sample.runtime Sample.env
             (Sample.call (JInt 23) "check_continuity_status"
                [ (lit "detailed", JStr [ 0xD800%N ]) ])
             [ (lit "detailed", JStr [ 0xD800%N ]) ] initial_state
             (sample_call_tools_call _ _ _) eq_refl eq_refl).
  reflexivity.
Defined.

(** ** More on [create_workflow_session] *)

(** X17: No arguments object makes the [create_workflow_session] tool
    raise.  The session found under the generated identifier afterwards
    holds the [session_name] as sent ([None] when absent), the [purpose] as
    sent ([General] when absent), the clock value and the status [active];
    the memory list is not touched. *)
Theorem create_workflow_session_stores_arguments rt env args st :
  let called :=
    execute_tool rt env (JStr (lit "create_workflow_session")) (JObj args) st in
  (exists result, snd called = Returned result) /\
  workflow_sessions (fst called) !! take 8 (uuid4_str env) =
  Some {| name := dict_get args (lit "session_name") JNull;
          purpose := dict_get args (lit "purpose") (JStr (lit "General"));
          created_at := now_isoformat env;
          status := lit "active" |} /\
  workflow_memory (fst called) = workflow_memory st.
Proof.
  cbv zeta. rewrite execute_tool_create. cbv zeta. cbn [fst snd workflow_sessions].
  split; [eexists; reflexivity|]. split; [|reflexivity].
  apply lookup_insert_eq.
Qed.

(** X18: Creating is not idempotent: two calls served one after the other,
    even with the same body, leave two sessions when their identifiers
    differ and are new, and the first session is still stored as created. *)
Theorem two_creations_two_sessions rt env1 env2 data1 data2 args1 args2 st :
  tools_call data1 (JStr (lit "create_workflow_session")) (JObj args1) ->
  tools_call data2 (JStr (lit "create_workflow_session")) (JObj args2) ->
  let id1 := take 8 (uuid4_str env1) in
  let id2 := take 8 (uuid4_str env2) in
  workflow_sessions st !! id1 = None ->
  workflow_sessions st !! id2 = None ->
  id1 <> id2 ->
  let st' := run rt [ (env1, POST_mcp (Returned (JObj data1)));
                      (env2, POST_mcp (Returned (JObj data2))) ] st in
  size (workflow_sessions st') = S (S (size (workflow_sessions st))) /\
  workflow_sessions st' !! id1 =
  Some {| name := dict_get args1 (lit "session_name") JNull;
          purpose := dict_get args1 (lit "purpose") (JStr (lit "General"));
          created_at := now_isoformat env1;
          status := lit "active" |} /\
  is_Some (workflow_sessions st' !! id2).
Proof.
  intros Hcall1 Hcall2. cbv zeta. intros Hnew1 Hnew2 Hdiff.
  cbn [run serve].
  rewrite (mcp_endpoint_tools_call_state rt env2 data2 _ _ _ Hcall2).
  rewrite (mcp_endpoint_tools_call_state rt env1 data1 _ _ st Hcall1).
  rewrite !execute_tool_create. cbv zeta. cbn [fst workflow_sessions].
  split; [|split].
  - rewrite map_size_insert_None.
    + rewrite map_size_insert_None by exact Hnew1. reflexivity.
    + rewrite lookup_insert_ne by exact Hdiff. exact Hnew2.
  - rewrite lookup_insert_ne by (intros E; apply Hdiff; symmetry; exact E).
    apply lookup_insert_eq.
  - rewrite lookup_insert_eq. eauto.
Qed.

Lemma two_creations_two_sessions_witness :
  let args := [ (lit "session_name", JStr (lit "daily")) ] in
  let data := Sample.call (JInt 21) "create_workflow_session" args in
  let later := {| uuid4_str := lit "0b1c2d3e-8b7d-4e6f-a5c4-d3b2a1908f7e";
                  now_isoformat := lit "2025-01-01T12:00:05.000000" |} in
  tools_call data (JStr (lit "create_workflow_session")) (JObj args) /\
  workflow_sessions initial_state !! take 8 (uuid4_str Sample.env) = None /\
  workflow_sessions initial_state !! take 8 (uuid4_str later) = None /\
  take 8 (uuid4_str Sample.env) <> take 8 (uuid4_str later) /\
  size (workflow_sessions
          (run Sample.runtime [ (Sample.env, POST_mcp (Returned (JObj data)));
                                (later, POST_mcp (Returned (JObj data))) ]
             initial_state)) = 2%nat.
Proof.
  cbv zeta.
  split; [apply sample_call_tools_call|]. split; [reflexivity|].
  split; [reflexivity|]. split; [discriminate|].
  exact (proj1 (two_creations_two_sessions Sample.runtime Sample.env
                  {| uuid4_str := lit "0b1c2d3e-8b7d-4e6f-a5c4-d3b2a1908f7e";
                     now_isoformat := lit "2025-01-01T12:00:05.000000" |}
                  (Sample.call (JInt 21) "create_workflow_session"
                     [ (lit "session_name", JStr (lit "daily")) ])
                  (Sample.call (JInt 21) "create_workflow_session"
                     [ (lit "session_name", JStr (lit "daily")) ])
                  [ (lit "session_name", JStr (lit "daily")) ]
                  [ (lit "session_name", JStr (lit "daily")) ]
                  initial_state
                  (sample_call_tools_call _ _ _) (sample_call_tools_call _ _ _)
                  eq_refl eq_refl ltac:(discriminate))).
Defined.

(** ** Reading the counts back from the text *)

Lemma digits_are_digits (d : uint) :
  Forall (fun c => (48 <= c <= 57)%N) (digits d).
Proof. induction d; simpl; constructor; auto; lia. Qed.

Lemma digits_inj (d d' : uint) : digits d = digits d' -> d = d'.
Proof.
  revert d'. induction d; destruct d'; simpl; intros H;
    try discriminate H; try reflexivity;
    injection H as H; f_equal; apply IHd; exact H.
Qed.

Lemma str_of_nat_inj (n m : nat) : str_of_nat n = str_of_nat m -> n = m.
Proof.
  intros H. apply DecimalNat.Unsigned.to_uint_inj, digits_inj. exact H.
Qed.

(** Two texts that agree, each a run of characters satisfying [P] followed
    by a character that does not, have the same run and the same rest. *)
Lemma split_at_first (P : N -> Prop) (l1 l2 : pystr) (x y : N) (r1 r2 : pystr) :
  Forall P l1 -> Forall P l2 -> ~ P x -> ~ P y ->
  l1 ++ x :: r1 = l2 ++ y :: r2 -> l1 = l2 /\ r1 = r2.
Proof.
  intros H1. revert l2. induction H1 as [ | c l1 Hc H1 IH]; intros l2 H2 Hx Hy E.
  - destruct H2 as [ | c l2 Hc H2]; simpl in E.
    + injection E as _ E. auto.
    + injection E as E _. subst c. contradiction.
  - destruct H2 as [ | c' l2 Hc' H2]; simpl in E.
    + injection E as E _. subst c. contradiction.
    + injection E as -> E. destruct (IH l2 H2 Hx Hy E) as [-> ->]. auto.
Qed.

(** X19: The summary line determines the two counts it was built from. *)
Theorem status_summary_determines_counts (n m n' m' : nat) :
  status_summary (str_of_nat n) (str_of_nat m)
  = status_summary (str_of_nat n') (str_of_nat m') ->
  n = n' /\ m = m'.
Proof.
  unfold status_summary. intros H.
  apply app_inv_head in H. apply app_inv_head in H.
  assert (H' : str_of_nat n ++ 32%N :: (lit "| Memory: " ++ str_of_nat m)
               = str_of_nat n' ++ 32%N :: (lit "| Memory: " ++ str_of_nat m'))
    by exact H.
  apply (split_at_first (fun c => (48 <= c <= 57)%N)) in H';
    [ | apply digits_are_digits | apply digits_are_digits | lia | lia ].
  destruct H' as [Hn Hm]. apply app_inv_head in Hm.
  split; apply str_of_nat_inj; assumption.
Qed.

Lemma status_summary_determines_counts_witness :
  status_summary (str_of_nat 12) (str_of_nat 3)
  = status_summary (lit "12") (lit "3") /\
  (12 = 12 /\ 3 = 3)%nat.
Proof.
  split; [reflexivity|].
  exact (status_summary_determines_counts 12 3 12 3 eq_refl).
Defined.
